(** * TweetPrint: dithering, raster packing and ESC/POS framing

    A shallow embedding of [print_image.py] and [print_tweet.py] (the
    ditherer, packer and transmitter of [print_gradient.py] repeat the same
    code on a synthetic ramp).  Python integers are [Z],
    byte strings and bytearrays are [list Z] with every element in
    [0, 256), Python exceptions are the [Raise] branch of [result], and the
    device file is a log of the calls made on the open handle. *)

From Stdlib Require Import ZArith String Ascii DecimalString Bool Lia List.
Import ListNotations.
Open Scope Z_scope.

(** ** Exceptions and the error monad *)

Inductive exn : Type :=
| IndexError
| ValueError
| ZeroDivisionError
| OSError (msg : string)
| SystemExit (code : Z).

Inductive result (A : Type) : Type :=
| Ok (a : A)
| Raise (e : exn).
Arguments Ok {A} a.
Arguments Raise {A} e.

Definition bind {A B : Type} (r : result A) (k : A -> result B) : result B :=
  match r with
  | Ok a => k a
  | Raise e => Raise e
  end.

Declare Scope py_scope.
Delimit Scope py_scope with py.
Notation "x <- r ;; k" := (bind r (fun x => k))
  (at level 100, r at next level, right associativity) : py_scope.
Notation "' p <- r ;; k" := (bind r (fun p => k))
  (at level 100, p pattern, r at next level, right associativity) : py_scope.
Open Scope py_scope.

(** ** Python builtins used by the scripts *)

(** [range(n)]: 0, 1, ..., n-1, empty when [n <= 0]. *)
Definition range (n : Z) : list Z := map Z.of_nat (seq 0 (Z.to_nat n)).

Definition len {A : Type} (l : list A) : Z := Z.of_nat (List.length l).

(** [l[i]]: a negative index counts from the end; out of range raises. *)
Definition py_index {A : Type} (l : list A) (i : Z) : result A :=
  let j := if i <? 0 then len l + i else i in
  if j <? 0 then Raise IndexError
  else match nth_error l (Z.to_nat j) with
       | Some a => Ok a
       | None => Raise IndexError
       end.

(** [for i in l: acc = body(acc, i)], stopping at the first exception. *)
Definition for_each {A S : Type} (l : list A) (body : S -> A -> result S)
  (init : S) : result S :=
  fold_left (fun acc i => s <- acc ;; body s i) l (Ok init).

(** [bytearray.append(v)] and [bytes([...])]: each element must be in
    [range(256)]. *)
Definition is_byte (v : Z) : bool := (0 <=? v) && (v <? 256).

Definition bytearray_append (data : list Z) (v : Z) : result (list Z) :=
  if is_byte v then Ok (data ++ [v]) else Raise ValueError.

Definition py_bytes (l : list Z) : result (list Z) :=
  if forallb is_byte l then Ok l else Raise ValueError.

(** [str(n)] for an int. *)
Definition str_of_int (n : Z) : string := NilZero.string_of_int (Z.to_int n).

(** ** Module constants, shared verbatim by the three scripts *)

Definition DEV : string := "/dev/usb/lp0".
Definition WIDTH : Z := 384.

Definition BAYER8 : list (list Z) :=
  [ [0;48;12;60;3;51;15;63];
    [32;16;44;28;35;19;47;31];
    [8;56;4;52;11;59;7;55];
    [40;24;36;20;43;27;39;23];
    [2;50;14;62;1;49;13;61];
    [34;18;46;30;33;17;45;29];
    [10;58;6;54;9;57;5;53];
    [42;26;38;22;41;25;37;21] ].

(** ** The ditherer ([print_image.py] 22-29, [print_tweet.py] 23-25)

    [int(b * (255.0 / 64.0))]: 255.0/64.0 is the double 3.984375 exactly,
    and for an integer [b] of the matrix the product [b * 255 / 64] is a
    multiple of 1/64 below 2^8, so the double product is exact and [int]
    truncates it to the integer quotient [b * 255 / 64]. *)
Definition int_scaled (b : Z) : Z := Z.quot (b * 255) 64.

Definition dither_pixel (gray x y : Z) : result Z :=
  row <- py_index BAYER8 (y mod 8) ;;
  b <- py_index row (x mod 8) ;;
  let threshold := int_scaled b in
  Ok (if gray <? threshold then 1 else 0).

(** ** Grayscale images

    A mode-"L" PIL image: its size and the pixel access object returned by
    [img.load()].  The size of an image never changes after creation;
    in-place drawing only replaces the pixel data. *)
Record Image : Type := mkImage {
  im_width : Z;
  im_height : Z;
  im_load : Z -> Z -> Z
}.

(** [img.convert("L")] on an image that is already mode "L" is a copy. *)
Definition convert_L (img : Image) : Image := img.

(** ** The raster packer

    The body shared by [build_bitmap_from_image] of [print_image.py]
    (lines 43-66, after the resize) and of [print_tweet.py] (lines 48-69). *)

(** The inner [for x in range(width_padded)] loop. *)
Definition build_row_bits (pixels : Z -> Z -> Z) (width width_padded y : Z)
  : result (list Z) :=
  for_each (range width_padded)
    (fun row_bits x =>
       b <- (if x <? width
             then (let gray := pixels x y in dither_pixel gray x y)
             else Ok 0) ;;
       Ok (row_bits ++ [b]))
    [].

(** The [for bit in range(8)] loop. *)
Definition pack_byte (row_bits : list Z) (byte_i : Z) : result Z :=
  for_each (range 8)
    (fun val bit =>
       let val := Z.shiftl val 1 in
       b <- py_index row_bits (byte_i * 8 + bit) ;;
       Ok (Z.lor val b))
    0.

(** The [for byte_i in range(bytes_per_row)] loop. *)
Definition pack_row (row_bits : list Z) (bytes_per_row : Z) (data : list Z)
  : result (list Z) :=
  for_each (range bytes_per_row)
    (fun data byte_i =>
       val <- pack_byte row_bits byte_i ;;
       bytearray_append data (Z.land val 255))
    data.

Definition pack_bitmap (width height : Z) (pixels : Z -> Z -> Z)
  : result (list Z * Z * Z) :=
  let pad := (8 - (width mod 8)) mod 8 in
  let width_padded := width + pad in
  let bytes_per_row := width_padded / 8 in
  data <- for_each (range height)
            (fun data y =>
               row_bits <- build_row_bits pixels width width_padded y ;;
               pack_row row_bits bytes_per_row data)
            [] ;;
  Ok (data, bytes_per_row, height).

(** ** The device and the console

    The device file is observed through the calls completed on the open
    handle and the pauses between them.  [time.sleep(0.02)] is recorded in
    milliseconds. *)
Inductive Event : Type :=
| EvWrite (bs : list Z)
| EvFlush
| EvSleep (ms : Z).

(** What the scripts cannot decide themselves: which paths exist, whether
    [open(dev, "wb", buffering=0)] raises, and whether the next call on the
    handle raises after the calls already completed. *)
Record Env : Type := mkEnv {
  path_exists : string -> bool;
  open_error : string -> option exn;
  call_error : list Event -> Event -> option exn
}.

Record World : Type := mkWorld {
  stdout : list string;
  trace : list Event
}.

Definition world0 : World := mkWorld [] [].

Definition IO (A : Type) : Type := World -> World * result A.

Definition io_ret {A : Type} (a : A) : IO A := fun w => (w, Ok a).

Definition io_raise {A : Type} (e : exn) : IO A := fun w => (w, Raise e).

Definition io_bind {A B : Type} (m : IO A) (k : A -> IO B) : IO B :=
  fun w => match m w with
           | (w', Ok a) => k a w'
           | (w', Raise e) => (w', Raise e)
           end.

Definition lift {A : Type} (r : result A) : IO A := fun w => (w, r).

Notation "x <-- m ;; k" := (io_bind m (fun x => k))
  (at level 100, m at next level, right associativity) : py_scope.
Notation "' p <-- m ;; k" := (io_bind m (fun p => k))
  (at level 100, p pattern, m at next level, right associativity) : py_scope.
Notation "m ;;; k" := (io_bind m (fun _ => k))
  (at level 100, right associativity) : py_scope.

(** [try: body  except Exception as e: handler(e)]; [SystemExit] is not an
    [Exception] and passes through. *)
Definition try_except {A : Type} (body : IO A) (handler : exn -> IO A) : IO A :=
  fun w => match body w with
           | (w', Ok a) => (w', Ok a)
           | (w', Raise (SystemExit c)) => (w', Raise (SystemExit c))
           | (w', Raise e) => handler e w'
           end.

Definition print (line : string) : IO unit :=
  fun w => (mkWorld (stdout w ++ [line]) (trace w), Ok tt).

Definition exn_str (e : exn) : string :=
  match e with
  | IndexError => "list index out of range"
  | ValueError => "bytes must be in range(0, 256)"
  | ZeroDivisionError => "division by zero"
  | OSError msg => msg
  | SystemExit c => str_of_int c
  end.

Definition call (env : Env) (ev : Event) : IO unit :=
  fun w => match call_error env (trace w) ev with
           | Some e => (w, Raise e)
           | None => (mkWorld (stdout w) (trace w ++ [ev]), Ok tt)
           end.

Definition f_write (env : Env) (bs : list Z) : IO unit := call env (EvWrite bs).
Definition f_flush (env : Env) : IO unit := call env EvFlush.
Definition time_sleep (ms : Z) : IO unit :=
  fun w => (mkWorld (stdout w) (trace w ++ [EvSleep ms]), Ok tt).

(** [with open(dev, "wb", buffering=0) as f: body]; the handle is released
    on every exit and leaves no event. *)
Definition with_open {A : Type} (env : Env) (dev : string) (body : IO A) : IO A :=
  fun w => match open_error env dev with
           | Some e => (w, Raise e)
           | None => body w
           end.

(** ** The framer and transmitter ([send_to_printer], identical in the
    three scripts) *)

Definition INIT : list Z := [0x1b; 0x40].

Definition header (width_bytes height_pixels : Z) : result (list Z) :=
  let m := 0 in
  let xL := Z.land width_bytes 0xFF in
  let xH := Z.land (Z.shiftr width_bytes 8) 0xFF in
  let yL := Z.land height_pixels 0xFF in
  let yH := Z.land (Z.shiftr height_pixels 8) 0xFF in
  py_bytes [0x1d; 0x76; 0x30; m; xL; xH; yL; yH].

Definition send_to_printer (env : Env) (dev : string) (data_bytes : list Z)
  (width_bytes height_pixels : Z) : IO bool :=
  hdr <-- lift (header width_bytes height_pixels) ;;
  with_open env dev
    (f_write env [10] ;;;
     f_flush env ;;;
     time_sleep 20 ;;;
     f_write env (INIT ++ hdr) ;;;
     f_flush env ;;;
     time_sleep 20 ;;;
     f_write env data_bytes ;;;
     f_flush env) ;;;
  io_ret true.

(** ** Library code outside the repository

    Pillow, the double-precision arithmetic of the two resize computations
    and [str.split] are taken as an interface.  Drawing acts on the pixel
    data of an image; it cannot change the size. *)
Inductive Resample : Type := LANCZOS | BICUBIC.

Definition BBox : Type := (Z * Z * Z * Z)%type.

Record Lib : Type := mkLib {
  AnyImage : Type;
  Font : Type;
  (** [Image.open(path)] *)
  Image_open : string -> result AnyImage;
  (** [img.convert("L")] on a decoded image of any mode *)
  convert : AnyImage -> result Image;
  (** [img.resize((w, h), resample)] *)
  resize : Image -> Z * Z -> Resample -> result Image;
  (** [int(a * (b / c))] in double arithmetic, for [c <> 0]: the two resize
      computations [int(h * (WIDTH / float(w)))] and [int((w / h) * 40)] *)
  int_scale : Z -> Z -> Z -> Z;
  (** [ImageFont.truetype(name, size)] and [ImageFont.load_default()] *)
  truetype : string -> Z -> result Font;
  load_default : Font;
  (** [ImageDraw.Draw(Image.new("L", (1,1))).textbbox((0,0), s, font=f)],
      with integer coordinates *)
  textbbox : string -> Font -> BBox;
  (** [draw.text(xy, s, font=f, fill=c)] on the pixel data *)
  draw_text : (Z -> Z -> Z) -> Z * Z -> string -> Font -> Z -> (Z -> Z -> Z);
  (** [s.split()] *)
  str_split : string -> list string
}.

(** The same with the check Python makes first: a float division by zero
    raises [ZeroDivisionError]. *)
Definition int_scale_checked (lib : Lib) (a b c : Z) : result Z :=
  if c =? 0 then Raise ZeroDivisionError else Ok (int_scale lib a b c).

(** [Image.new("L", (w, h), color)] *)
Definition Image_new (w h color : Z) : result Image :=
  if (w <? 0) || (h <? 0) then Raise ValueError
  else Ok (mkImage w h (fun _ _ => color)).

(** [img.paste(src, (x0, y0))]: the pixels of [img] under [src] are
    replaced, the size of [img] is kept. *)
Definition paste (img src : Image) (x0 y0 : Z) : Image :=
  mkImage (im_width img) (im_height img)
    (fun x y =>
       if (x0 <=? x) && (x <? x0 + im_width src) &&
          (y0 <=? y) && (y <? y0 + im_height src)
       then im_load src (x - x0) (y - y0)
       else im_load img x y).

Definition Draw_text (lib : Lib) (img : Image) (xy : Z * Z) (s : string)
  (f : Font lib) (fill : Z) : Image :=
  mkImage (im_width img) (im_height img)
    (draw_text lib (im_load img) xy s f fill).

(** ** print_image.py *)
Module PrintImage.
Section WithLib.
Variable lib : Lib.
Variable env : Env.

Definition build_bitmap_from_image (img : AnyImage lib)
  : result (list Z * Z * Z) :=
  img <- convert lib img ;;
  let '(w, h) := (im_width img, im_height img) in
  new_h <- int_scale_checked lib h WIDTH w ;;
  img <- resize lib img (WIDTH, new_h) LANCZOS ;;
  let width := im_width img in
  let height := im_height img in
  pack_bitmap width height (im_load img).

Definition main (argv : list string) : IO unit :=
  match argv with
  | [] => io_raise IndexError
  | [prog] => print ("Usage: " ++ prog ++ " <imagefile>")
  | _ :: image_path :: _ =>
      if negb (path_exists env image_path)
      then print ("Image " ++ image_path ++ " not found.")
      else
        img <-- lift (Image_open lib image_path) ;;
        '(data, width_bytes, height) <-- lift (build_bitmap_from_image img) ;;
        print ("Width px: " ++ str_of_int WIDTH ++ " Bytes/row: "
               ++ str_of_int width_bytes ++ " Height px: "
               ++ str_of_int height) ;;;
        if negb (path_exists env DEV)
        then print ("Device " ++ DEV ++ " not found.")
        else
          try_except
            (send_to_printer env DEV data width_bytes height ;;;
             print "Sent OK.")
            (fun e => print ("Write failed: " ++ exn_str e))
  end.

End WithLib.
End PrintImage.

(** ** print_tweet.py *)
Module PrintTweet.
Section WithLib.
Variable lib : Lib.
Variable env : Env.

Definition bbox_x0 (b : BBox) : Z := let '(x0, _, _, _) := b in x0.
Definition bbox_y0 (b : BBox) : Z := let '(_, y0, _, _) := b in y0.
Definition bbox_x1 (b : BBox) : Z := let '(_, _, x1, _) := b in x1.
Definition bbox_y1 (b : BBox) : Z := let '(_, _, _, y1) := b in y1.

Definition non_empty (s : string) : bool := negb (String.eqb s "").

Definition wrap_text_pixels (text : string) (font : Font lib) (max_width : Z)
  : list string :=
  let words := str_split lib text in
  let '(lines, current_line) :=
    fold_left
      (fun (st : list string * string) word =>
         let '(lines, current_line) := st in
         let test_line :=
           (current_line ++ (if non_empty current_line then " " else "")
            ++ word)%string in
         let bbox := textbbox lib test_line font in
         let line_width := bbox_x1 bbox - bbox_x0 bbox in
         if line_width <=? max_width
         then (lines, test_line)
         else ((if non_empty current_line
                then lines ++ [current_line] else lines), word))
      words ([], ""%string) in
  if non_empty current_line then lines ++ [current_line] else lines.

Definition build_bitmap_from_image (img : Image) : result (list Z * Z * Z) :=
  let img := convert_L img in
  let '(width, height) := (im_width img, im_height img) in
  pack_bitmap width height (im_load img).

Definition load_fonts : Font lib * Font lib * Font lib :=
  match (font_user <- truetype lib "DejaVuSans-Bold.ttf"%string 24 ;;
         font_text <- truetype lib "DejaVuSans.ttf"%string 22 ;;
         font_date <- truetype lib "DejaVuSans.ttf"%string 18 ;;
         Ok (font_user, font_text, font_date)) with
  | Ok fonts => fonts
  | Raise _ => (load_default lib, load_default lib, load_default lib)
  end.

Definition render_tweet (profile_path username text date : string)
  : result Image :=
  pimg <- Image_open lib profile_path ;;
  pimg <- convert lib pimg ;;
  let target_h := 40 in
  target_w <- int_scale_checked lib target_h (im_width pimg) (im_height pimg) ;;
  pimg <- resize lib pimg (target_w, target_h) BICUBIC ;;
  let '(font_user, font_text, font_date) := load_fonts in
  let lines := wrap_text_pixels text font_text WIDTH in
  let username_bbox := textbbox lib ("@" ++ username)%string font_user in
  let profile_line_height := Z.max target_h (bbox_y1 username_bbox) in
  let line_bboxes := map (fun line => textbbox lib line font_text) lines in
  let tweet_text_height :=
    fold_left Z.add
      (map (fun bbox => bbox_y1 bbox - bbox_y0 bbox + 4) line_bboxes) 0 in
  let date_bbox := textbbox lib date font_date in
  let date_height := bbox_y1 date_bbox - bbox_y0 date_bbox in
  let padding_top := 8 in
  let padding_bottom := 40 in
  let spacing := 10 in
  let total_height :=
    padding_top + profile_line_height + spacing + tweet_text_height
    + spacing + date_height + padding_bottom in
  img <- Image_new WIDTH total_height 255 ;;
  let img := paste img pimg 0 padding_top in
  let img := Draw_text lib img (target_w + 6, padding_top) ("@" ++ username)%string
                  font_user 0 in
  let y_offset := padding_top + profile_line_height + spacing in
  let '(img, y_offset) :=
    fold_left
      (fun (st : Image * Z) (lb : string * BBox) =>
         let '(img, y_offset) := st in
         let '(line, bbox) := lb in
         (Draw_text lib img (0, y_offset) line font_text 0,
          y_offset + (bbox_y1 bbox - bbox_y0 bbox) + 4))
      (combine lines line_bboxes) (img, y_offset) in
  let y_offset_date := y_offset + spacing in
  let img := Draw_text lib img (0, y_offset_date) date font_date 0 in
  Ok img.

Definition main (argv : list string) : IO unit :=
  match argv with
  | _ :: profile_path :: username :: tweet_text :: date :: _ =>
      img <-- lift (render_tweet profile_path username tweet_text date) ;;
      '(data, width_bytes, height) <-- lift (build_bitmap_from_image img) ;;
      print ("Rendering tweet: " ++ username) ;;;
      print ("Width: " ++ str_of_int WIDTH ++ " Bytes/row: "
             ++ str_of_int width_bytes ++ " Height: " ++ str_of_int height) ;;;
      try_except
        (send_to_printer env DEV data width_bytes height ;;;
         print "Printed OK.")
        (fun e => print ("Print failed: " ++ exn_str e))
  | _ =>
      print "Usage: tweetprint.py <profile_img> <username> <tweet_text> <date>" ;;;
      io_raise (SystemExit 1)
  end.

End WithLib.
End PrintTweet.

(** ** Reading the raster back

    The decoder of the wire format: bit [x mod 8] of byte [x / 8] of row
    [y], the leftmost column in the most significant bit. *)
Definition read_bit (data : list Z) (bytes_per_row x y : Z) : result Z :=
  byte <- py_index data (y * bytes_per_row + x / 8) ;;
  Ok (Z.land (Z.shiftr byte (7 - x mod 8)) 1).

(** The bytes that reach the device, in order. *)
Definition wire_bytes (tr : list Event) : list Z :=
  flat_map (fun ev => match ev with EvWrite bs => bs | _ => [] end) tr.

Definition count_writes (tr : list Event) : nat :=
  List.length (filter (fun ev => match ev with EvWrite _ => true | _ => false end) tr).

(** ** Closed forms of the loops *)

(** The threshold of a position, with the matrix lookup made total. *)
Definition threshold_at (x y : Z) : Z :=
  int_scaled (nth (Z.to_nat (x mod 8)) (nth (Z.to_nat (y mod 8)) BAYER8 []) 0).

Definition dot (pixels : Z -> Z -> Z) (width y x : Z) : Z :=
  if x <? width
  then (if pixels x y <? threshold_at x y then 1 else 0)
  else 0.

Definition bits_value (bits : list Z) : Z :=
  fold_left (fun val b => Z.lor (Z.shiftl val 1) b) bits 0.

Definition byte_value (f : Z -> Z) (byte_i : Z) : Z :=
  Z.land (bits_value (map (fun bit => f (byte_i * 8 + bit)) (range 8))) 255.

Definition raster_row (pixels : Z -> Z -> Z) (width bytes_per_row y : Z) : list Z :=
  map (byte_value (dot pixels width y)) (range bytes_per_row).

Definition raster (pixels : Z -> Z -> Z) (width bytes_per_row height : Z) : list Z :=
  concat (map (raster_row pixels width bytes_per_row) (range height)).

(** The two sizes the packer derives from the width. *)
Definition width_padded_of (width : Z) : Z := width + (8 - (width mod 8)) mod 8.
Definition bytes_per_row_of (width : Z) : Z := width_padded_of width / 8.

(** The header as a list, with the byte check of [bytes([...])] discharged. *)
Definition header_bytes (width_bytes height_pixels : Z) : list Z :=
  [0x1d; 0x76; 0x30; 0;
   Z.land width_bytes 0xFF; Z.land (Z.shiftr width_bytes 8) 0xFF;
   Z.land height_pixels 0xFF; Z.land (Z.shiftr height_pixels 8) 0xFF].

(** The calls of one complete transmission. *)
Definition transmission (hdr data_bytes : list Z) : list Event :=
  [EvWrite [10]; EvFlush; EvSleep 20;
   EvWrite (INIT ++ hdr); EvFlush; EvSleep 20;
   EvWrite data_bytes; EvFlush].

Definition device_not_found : string := "Device /dev/usb/lp0 not found.".

Definition printed (line : string) (w : World) : bool :=
  existsb (String.eqb line) (stdout w).

(** ** Concrete inputs *)

(** An all-black 384x10 grid. *)
Definition black_384x10 : Image := mkImage 384 10 (fun _ _ => 0).

(** A 385x2 ramp: one column more than a whole number of bytes. *)
Definition ramp_385x2 : Image := mkImage 385 2 (fun x y => (x + y) mod 256).

(** The device node is present, opens, and accepts every call. *)
Definition env_ok : Env :=
  mkEnv (fun _ => true) (fun _ => None) (fun _ _ => None).

(** The device node is absent but its directory exists: [open(.., "wb")]
    creates a regular file and every call on it succeeds. *)
Definition env_absent_created : Env :=
  mkEnv (fun _ => false) (fun _ => None) (fun _ _ => None).

(** The device node and its directory are absent: [open] raises. *)
Definition no_such_file : string :=
  "[Errno 2] No such file or directory: '/dev/usb/lp0'".

Definition env_absent_no_dir : Env :=
  mkEnv (fun _ => false) (fun _ => Some (OSError no_such_file)) (fun _ _ => None).

(** A stand-in for the library: a 40x40 grey profile image, nearest
    neighbour resize, one font in which every glyph is 10 wide and 20 high
    and leaves no ink, and a split that keeps the text whole. *)
Definition lib_plain : Lib :=
  {| AnyImage := Image;
     Font := unit;
     Image_open := fun _ => Ok (mkImage 40 40 (fun _ _ => 128));
     convert := fun img => Ok img;
     resize := fun img '(w, h) _ =>
                 Ok (mkImage w h
                       (fun x y => im_load img (x * im_width img / w)
                                               (y * im_height img / h)));
     int_scale := fun a b c => a * b / c;
     truetype := fun _ _ => Ok tt;
     load_default := tt;
     textbbox := fun s _ => (0, 0, 10 * Z.of_nat (String.length s), 20);
     draw_text := fun px _ _ _ _ => px;
     str_split := fun s => [s] |}.

(** ** print_gradient.py

    [int((x / (width - 1)) * 255)] is a double computation and is taken as
    the parameter [ramp x (width - 1)].  [int((b + 0.5) * (255.0 / 64.0))]
    is exact: [b + 0.5] and 255.0/64.0 are doubles, and their product
    [(2b + 1) * 255 / 128] has a numerator below 2^15 and a power of two
    as denominator. *)
Module PrintGradient.

Definition HEIGHT : Z := 200.

Definition int_half_scaled (b : Z) : Z := Z.quot ((2 * b + 1) * 255) 128.

Section WithRamp.
Variable ramp : Z -> Z -> Z.
Variable env : Env.

Definition pixel_black (x y width : Z) : result Z :=
  gray <- (if width - 1 =? 0 then Raise ZeroDivisionError
           else Ok (ramp x (width - 1))) ;;
  row <- py_index BAYER8 (y mod 8) ;;
  b <- py_index row (x mod 8) ;;
  let t := int_half_scaled b in
  Ok (if gray >? t then 1 else 0).

Definition build_bitmap (width height : Z) : result (list Z * Z) :=
  let pad := (8 - (width mod 8)) mod 8 in
  let width_padded := width + pad in
  let bytes_per_row := width_padded / 8 in
  data <- for_each (range height)
            (fun data y =>
               row_bits <- for_each (range width_padded)
                             (fun row_bits x =>
                                b <- (if x <? width then pixel_black x y width
                                      else Ok 0) ;;
                                Ok (row_bits ++ [b]))
                             [] ;;
               pack_row row_bits bytes_per_row data)
            [] ;;
  Ok (data, bytes_per_row).

Definition main : IO unit :=
  if negb (path_exists env DEV)
  then print ("Device " ++ DEV ++ " not found.")
  else
    '(data, width_bytes) <-- lift (build_bitmap WIDTH HEIGHT) ;;
    print ("Width px: " ++ str_of_int WIDTH ++ " Bytes/row: "
           ++ str_of_int width_bytes ++ " Height px: "
           ++ str_of_int HEIGHT) ;;;
    try_except
      (send_to_printer env DEV data width_bytes HEIGHT ;;;
       print "Sent OK.")
      (fun e => print ("Write failed: " ++ exn_str e)).

End WithRamp.
End PrintGradient.

(** ** Measures used in the statements *)

(** The number of black dots in the 8x8 window with corner [(x0, y0)] of a
    flat field of one gray value. *)
Definition dot_value (r : result Z) : Z :=
  match r with Ok d => d | Raise _ => 0 end.

Definition tile_black (gray x0 y0 : Z) : Z :=
  fold_left Z.add
    (flat_map
       (fun dy => map (fun dx => dot_value (dither_pixel gray (x0 + dx) (y0 + dy)))
                      (range 8))
       (range 8))
    0.

(** The black dots of a flat field in the eight columns of matrix row
    [s]. *)
Definition row_black (gray s : Z) : Z :=
  fold_left Z.add
    (map (fun r => if gray <? threshold_at r s then 1 else 0) (range 8)) 0.

(** The dimensions a header declares: each pair of bytes read low byte
    first. *)
Definition declared_dims (hdr : list Z) : option (Z * Z) :=
  match hdr with
  | [_; _; _; _; x_lo; x_hi; y_lo; y_hi] =>
      Some (x_lo + 256 * x_hi, y_lo + 256 * y_hi)
  | _ => None
  end.

(** The rows [a .. a + b - 1] of an image as an image of their own. *)
Definition strip (img : Image) (a b : Z) : Image :=
  mkImage (im_width img) b (fun x y => im_load img x (y + a)).

(** The closed form of the gradient's decision and raster, away from the
    division by zero at width 1. *)
Definition gradient_dot (ramp : Z -> Z -> Z) (width y x : Z) : Z :=
  if x <? width
  then (if ramp x (width - 1)
           >? PrintGradient.int_half_scaled
                (nth (Z.to_nat (x mod 8)) (nth (Z.to_nat (y mod 8)) BAYER8 []) 0)
        then 1 else 0)
  else 0.

Definition gradient_raster (ramp : Z -> Z -> Z) (width bytes_per_row height : Z)
  : list Z :=
  concat (map (fun y => map (byte_value (gradient_dot ramp width y))
                            (range bytes_per_row))
              (range height)).

(** ** More concrete inputs *)

(** The proportional ramp in exact arithmetic. *)
Definition ramp_exact (x d : Z) : Z := x * 255 / d.

(** Only the file [photo.png] exists: the device node is absent. *)
Definition env_photo_only : Env :=
  mkEnv (fun p => String.eqb p "photo.png") (fun _ => None) (fun _ _ => None).

(** The device accepts the newline, its flush and the pause, and fails
    from the fourth call on. *)
Definition io_error : string := "[Errno 5] Input/output error".

Definition env_unplugged : Env :=
  mkEnv (fun _ => true) (fun _ => None)
    (fun tr _ => if 3 <=? len tr then Some (OSError io_error) else None).

(** The bold font file is missing; everything else as in [lib_plain]. *)
Definition lib_no_bold : Lib :=
  {| AnyImage := Image;
     Font := bool;
     Image_open := fun _ => Ok (mkImage 40 40 (fun _ => fun _ => 128));
     convert := fun img => Ok img;
     resize := fun img '(w, h) _ => Ok (mkImage w h (im_load img));
     int_scale := fun a b c => a * b / c;
     truetype := fun name _ =>
                   if String.eqb name "DejaVuSans-Bold.ttf"
                   then Raise (OSError "cannot open resource") else Ok true;
     load_default := false;
     textbbox := fun s _ => (0, 0, 10 * Z.of_nat (String.length s), 20);
     draw_text := fun px _ _ _ _ => px;
     str_split := fun s => [s] |}.

(** A split at single spaces, enough for text without other whitespace. *)
Fixpoint split_spaces (cur : string) (s : string) : list string :=
  match s with
  | EmptyString => if String.eqb cur "" then [] else [cur]
  | String c s' =>
      if Ascii.eqb c " "
      then (if String.eqb cur "" then split_spaces "" s'
            else cur :: split_spaces "" s')
      else split_spaces (cur ++ String c EmptyString) s'
  end.

Definition lib_words : Lib :=
  {| AnyImage := Image;
     Font := unit;
     Image_open := fun _ => Ok (mkImage 40 40 (fun _ => fun _ => 128));
     convert := fun img => Ok img;
     resize := fun img '(w, h) _ => Ok (mkImage w h (im_load img));
     int_scale := fun a b c => a * b / c;
     truetype := fun _ _ => Ok tt;
     load_default := tt;
     textbbox := fun s _ => (0, 0, 10 * Z.of_nat (String.length s), 20);
     draw_text := fun px _ _ _ _ => px;
     str_split := split_spaces "" |}.

(** The device raises nothing but [OSError]. *)
Definition only_os_errors (env : Env) (dev : string) : Prop :=
  (forall e, open_error env dev = Some e -> exists msg, e = OSError msg) /\
  (forall tr ev e, call_error env tr ev = Some e -> exists msg, e = OSError msg).

(** ** The text wrapper, step by step *)

(** The measured width of a line, the body of the loop of
    [wrap_text_pixels] and its last statement. *)
Definition line_width (lib : Lib) (font : Font lib) (line : string) : Z :=
  PrintTweet.bbox_x1 (textbbox lib line font)
  - PrintTweet.bbox_x0 (textbbox lib line font).

Definition wrap_step (lib : Lib) (font : Font lib) (max_width : Z)
  (st : list string * string) (word : string) : list string * string :=
  let '(lines, current_line) := st in
  let test_line :=
    (current_line ++ (if PrintTweet.non_empty current_line then " " else "")
     ++ word)%string in
  if line_width lib font test_line <=? max_width
  then (lines, test_line)
  else ((if PrintTweet.non_empty current_line
         then lines ++ [current_line] else lines), word).

Definition wrap_finish (st : list string * string) : list string :=
  let '(lines, current_line) := st in
  if PrintTweet.non_empty current_line then lines ++ [current_line] else lines.

(** What every returned line satisfies, and the loop invariant: the lines
    so far satisfy it and the pending line is empty or satisfies it. *)
Definition wrap_good (lib : Lib) (font : Font lib) (max_width : Z)
  (words : list string) (line : string) : Prop :=
  line <> ""%string /\
  (In line words \/ line_width lib font line <= max_width).

Definition wrap_inv (lib : Lib) (font : Font lib) (max_width : Z)
  (words : list string) (st : list string * string) : Prop :=
  Forall (wrap_good lib font max_width words) (fst st) /\
  (snd st = ""%string \/ wrap_good lib font max_width words (snd st)).

(** Words joined by single spaces. *)
Definition join (ws : list string) : string := String.concat " " ws.

(** The profile image cannot be opened; everything else as in [lib_plain]. *)
Definition lib_no_profile : Lib :=
  {| AnyImage := Image;
     Font := unit;
     Image_open := fun _ => Raise (OSError "[Errno 2] No such file or directory: 'face.png'");
     convert := fun img => Ok img;
     resize := fun img '(w, h) _ => Ok (mkImage w h (im_load img));
     int_scale := fun a b c => a * b / c;
     truetype := fun _ _ => Ok tt;
     load_default := tt;
     textbbox := fun s _ => (0, 0, 10 * Z.of_nat (String.length s), 20);
     draw_text := fun px _ _ _ _ => px;
     str_split := fun s => [s] |}.

(** [resize] returns an image of the size it was asked for. *)
Definition resize_honours_size (lib : Lib) : Prop :=
  forall img w h r img',
    resize lib img (w, h) r = Ok img' -> im_width img' = w /\ im_height img' = h.

(** ** Basic facts about the builtins *)

Lemma range_length (n : Z) : List.length (range n) = Z.to_nat n.
Proof. unfold range. now rewrite length_map, length_seq. Qed.

Lemma range_nth_error (n : Z) (k : nat) :
  (k < Z.to_nat n)%nat -> nth_error (range n) k = Some (Z.of_nat k).
Proof.
  intros Hk. unfold range.
  rewrite nth_error_map, nth_error_seq.
  destruct (Nat.ltb_spec k (Z.to_nat n)); [reflexivity | lia].
Qed.

Lemma range_In (n i : Z) : In i (range n) <-> 0 <= i < n.
Proof.
  unfold range. rewrite in_map_iff. split.
  - intros (k & <- & Hk). apply in_seq in Hk. lia.
  - intros Hi. exists (Z.to_nat i). split; [lia | apply in_seq; lia].
Qed.

Lemma py_index_map_range {A : Type} (f : Z -> A) (n i : Z) :
  0 <= i < n -> py_index (map f (range n)) i = Ok (f i).
Proof.
  intros Hi. unfold py_index.
  destruct (Z.ltb_spec i 0); [lia |].
  destruct (Z.ltb_spec i 0); [lia |].
  rewrite nth_error_map, range_nth_error by lia.
  simpl. now rewrite Z2Nat.id by lia.
Qed.

Lemma py_index_nth_error {A : Type} (l : list A) (i : Z) (a : A) :
  0 <= i -> nth_error l (Z.to_nat i) = Some a -> py_index l i = Ok a.
Proof.
  intros Hi Hn. unfold py_index.
  destruct (Z.ltb_spec i 0); [lia |].
  destruct (Z.ltb_spec i 0); [lia |].
  now rewrite Hn.
Qed.

Lemma for_each_raise {A S : Type} (l : list A) (body : S -> A -> result S) (e : exn) :
  fold_left (fun acc i => s <- acc ;; body s i) l (Raise e) = Raise e.
Proof. induction l as [| a l IH]; simpl; auto. Qed.

Lemma for_each_cons {A S : Type} (a : A) (l : list A)
  (body : S -> A -> result S) (init : S) :
  for_each (a :: l) body init = (s <- body init a ;; for_each l body s).
Proof.
  unfold for_each. simpl. destruct (body init a); simpl; auto.
  apply for_each_raise.
Qed.

(** A loop whose body appends [g i] to the accumulator builds
    [init ++ concat (map g l)]. *)
Lemma for_each_extend {A B : Type} (l : list A)
  (body : list B -> A -> result (list B)) (g : A -> list B) :
  (forall acc i, In i l -> body acc i = Ok (acc ++ g i)) ->
  forall init, for_each l body init = Ok (init ++ concat (map g l)).
Proof.
  induction l as [| a l IH]; intros Hbody init.
  - simpl. now rewrite app_nil_r.
  - rewrite for_each_cons, Hbody by (left; reflexivity). simpl.
    rewrite IH by (intros; apply Hbody; right; assumption).
    now rewrite app_assoc.
Qed.

Lemma for_each_append {A B : Type} (l : list A)
  (body : list B -> A -> result (list B)) (g : A -> B) :
  (forall acc i, In i l -> body acc i = Ok (acc ++ [g i])) ->
  forall init, for_each l body init = Ok (init ++ map g l).
Proof.
  intros Hbody init.
  rewrite (for_each_extend l body (fun i => [g i])) by assumption.
  f_equal. f_equal. induction l; simpl; [reflexivity |].
  f_equal. apply IHl. intros; apply Hbody; right; assumption.
Qed.

(** ** The ditherer never raises *)

Lemma mod8_cases (n : Z) :
  n mod 8 = 0 \/ n mod 8 = 1 \/ n mod 8 = 2 \/ n mod 8 = 3 \/
  n mod 8 = 4 \/ n mod 8 = 5 \/ n mod 8 = 6 \/ n mod 8 = 7.
Proof. pose proof (Z.mod_pos_bound n 8). lia. Qed.

Lemma dither_pixel_closed (gray x y : Z) :
  dither_pixel gray x y = Ok (if gray <? threshold_at x y then 1 else 0).
Proof.
  unfold dither_pixel, threshold_at.
  destruct (mod8_cases y) as [Hy | [Hy | [Hy | [Hy | [Hy | [Hy | [Hy | Hy]]]]]]];
    rewrite Hy;
    destruct (mod8_cases x) as [Hx | [Hx | [Hx | [Hx | [Hx | [Hx | [Hx | Hx]]]]]]];
    rewrite Hx; reflexivity.
Qed.

Lemma threshold_at_period_x (x y : Z) : threshold_at (x + 8) y = threshold_at x y.
Proof.
  unfold threshold_at.
  replace (x + 8) with (x + 1 * 8) by lia.
  now rewrite Z.mod_add by lia.
Qed.

Lemma threshold_at_period_y (x y : Z) : threshold_at x (y + 8) = threshold_at x y.
Proof.
  unfold threshold_at.
  replace (y + 8) with (y + 1 * 8) by lia.
  now rewrite Z.mod_add by lia.
Qed.

(** ** The packer never raises and equals its closed form *)

Lemma build_row_bits_closed (pixels : Z -> Z -> Z) (width width_padded y : Z) :
  build_row_bits pixels width width_padded y
  = Ok (map (dot pixels width y) (range width_padded)).
Proof.
  unfold build_row_bits.
  rewrite (for_each_append _ _ (dot pixels width y)); [reflexivity |].
  intros acc x _. unfold dot.
  destruct (x <? width); [rewrite dither_pixel_closed |]; reflexivity.
Qed.

Lemma pack_byte_closed (f : Z -> Z) (n byte_i : Z) :
  0 <= byte_i -> byte_i * 8 + 8 <= n ->
  pack_byte (map f (range n)) byte_i
  = Ok (bits_value (map (fun bit => f (byte_i * 8 + bit)) (range 8))).
Proof.
  intros H0 Hn. unfold pack_byte.
  change (range 8) with [0; 1; 2; 3; 4; 5; 6; 7].
  unfold for_each, bits_value. simpl fold_left.
  repeat (rewrite py_index_map_range by lia; cbn [bind]).
  reflexivity.
Qed.

Lemma land_255_is_byte (v : Z) : is_byte (Z.land v 255) = true.
Proof.
  change 255 with (Z.ones 8). rewrite Z.land_ones by lia.
  pose proof (Z.mod_pos_bound v (2 ^ 8)) as Hb.
  unfold is_byte. change (2 ^ 8) with 256 in *.
  apply andb_true_intro; split; [apply Z.leb_le | apply Z.ltb_lt]; lia.
Qed.

Lemma pack_row_closed (f : Z -> Z) (n bytes_per_row : Z) (data : list Z) :
  bytes_per_row * 8 <= n ->
  pack_row (map f (range n)) bytes_per_row data
  = Ok (data ++ map (byte_value f) (range bytes_per_row)).
Proof.
  intros Hn. unfold pack_row.
  apply for_each_append. intros acc i Hi. apply range_In in Hi.
  rewrite pack_byte_closed by lia. cbn [bind].
  unfold bytearray_append, byte_value. now rewrite land_255_is_byte.
Qed.

Lemma width_padded_multiple (width : Z) :
  bytes_per_row_of width * 8 = width_padded_of width.
Proof.
  unfold bytes_per_row_of, width_padded_of.
  assert (H : (width + (8 - width mod 8) mod 8) mod 8 = 0).
  { destruct (mod8_cases width) as [H | [H | [H | [H | [H | [H | [H | H]]]]]]];
      rewrite <- Zplus_mod_idemp_l, H; reflexivity. }
  pose proof (Z.div_mod (width + (8 - width mod 8) mod 8) 8). lia.
Qed.

Lemma pack_bitmap_closed (width height : Z) (pixels : Z -> Z -> Z) :
  pack_bitmap width height pixels
  = Ok (raster pixels width (bytes_per_row_of width) height,
        bytes_per_row_of width, height).
Proof.
  unfold pack_bitmap.
  fold (width_padded_of width). fold (bytes_per_row_of width).
  rewrite (for_each_extend _ _ (raster_row pixels width (bytes_per_row_of width))).
  - reflexivity.
  - intros acc y _. rewrite build_row_bits_closed. cbn [bind].
    apply pack_row_closed. rewrite width_padded_multiple. lia.
Qed.

(** ** Indexing the raster *)

Lemma length_concat_uniform {A : Type} (ll : list (list A)) (m : nat) :
  (forall r, In r ll -> List.length r = m) ->
  List.length (concat ll) = (List.length ll * m)%nat.
Proof.
  induction ll as [| r ll IH]; intros Hm; simpl; [reflexivity |].
  rewrite length_app, IH by (intros; apply Hm; right; assumption).
  rewrite (Hm r) by (left; reflexivity). reflexivity.
Qed.

Lemma nth_error_concat_uniform {A : Type} (ll : list (list A)) (m k i : nat) :
  (forall r, In r ll -> List.length r = m) -> (i < m)%nat ->
  nth_error (concat ll) (k * m + i)
  = match nth_error ll k with Some r => nth_error r i | None => None end.
Proof.
  revert k. induction ll as [| r ll IH]; intros k Hm Hi.
  - simpl. destruct k; simpl; now rewrite nth_error_nil.
  - assert (Hr : List.length r = m) by (apply Hm; left; reflexivity).
    destruct k as [| k]; simpl.
    + apply nth_error_app1. lia.
    + rewrite nth_error_app2 by lia.
      replace (m + k * m + i - List.length r)%nat with (k * m + i)%nat by lia.
      apply IH; [intros; apply Hm; right; assumption | assumption].
Qed.

Lemma raster_row_length (pixels : Z -> Z -> Z) (width bytes_per_row y : Z) :
  List.length (raster_row pixels width bytes_per_row y) = Z.to_nat bytes_per_row.
Proof. unfold raster_row. now rewrite length_map, range_length. Qed.

Lemma raster_rows_uniform (pixels : Z -> Z -> Z) (width bytes_per_row height : Z) :
  forall r, In r (map (raster_row pixels width bytes_per_row) (range height)) ->
            List.length r = Z.to_nat bytes_per_row.
Proof.
  intros r Hr. apply in_map_iff in Hr. destruct Hr as (y & <- & _).
  apply raster_row_length.
Qed.

Lemma raster_length (pixels : Z -> Z -> Z) (width bytes_per_row height : Z) :
  0 <= bytes_per_row -> 0 <= height ->
  len (raster pixels width bytes_per_row height) = bytes_per_row * height.
Proof.
  intros Hb Hh. unfold len, raster.
  rewrite (length_concat_uniform _ _ (raster_rows_uniform _ _ _ _)).
  rewrite length_map, range_length. lia.
Qed.

Lemma raster_index (pixels : Z -> Z -> Z) (width bytes_per_row height y i : Z) :
  0 <= y < height -> 0 <= i < bytes_per_row ->
  py_index (raster pixels width bytes_per_row height) (y * bytes_per_row + i)
  = Ok (byte_value (dot pixels width y) i).
Proof.
  intros Hy Hi. apply py_index_nth_error; [nia |].
  replace (Z.to_nat (y * bytes_per_row + i))
    with (Z.to_nat y * Z.to_nat bytes_per_row + Z.to_nat i)%nat by nia.
  unfold raster.
  rewrite (nth_error_concat_uniform _ _ _ _ (raster_rows_uniform _ _ _ _)) by lia.
  rewrite nth_error_map, range_nth_error by lia. simpl.
  unfold raster_row.
  rewrite nth_error_map, range_nth_error by lia. simpl.
  now rewrite !Z2Nat.id by lia.
Qed.

(** ** Bit [7 - k] of a packed byte is the [k]-th decision *)

Lemma byte_value_bit (f : Z -> Z) (byte_i k : Z) :
  (forall j, f j = 0 \/ f j = 1) -> 0 <= k < 8 ->
  Z.land (Z.shiftr (byte_value f byte_i) (7 - k)) 1 = f (byte_i * 8 + k).
Proof.
  intros Hf Hk. unfold byte_value, bits_value.
  change (range 8) with [0; 1; 2; 3; 4; 5; 6; 7]. cbn [map fold_left].
  assert (Hc : k = 0 \/ k = 1 \/ k = 2 \/ k = 3 \/ k = 4 \/ k = 5 \/ k = 6 \/ k = 7)
    by lia.
  destruct (Hf (byte_i * 8 + 0)) as [E0 | E0], (Hf (byte_i * 8 + 1)) as [E1 | E1],
    (Hf (byte_i * 8 + 2)) as [E2 | E2], (Hf (byte_i * 8 + 3)) as [E3 | E3],
    (Hf (byte_i * 8 + 4)) as [E4 | E4], (Hf (byte_i * 8 + 5)) as [E5 | E5],
    (Hf (byte_i * 8 + 6)) as [E6 | E6], (Hf (byte_i * 8 + 7)) as [E7 | E7];
    rewrite E0, E1, E2, E3, E4, E5, E6, E7;
    destruct Hc as [-> | [-> | [-> | [-> | [-> | [-> | [-> | ->]]]]]]];
    symmetry; assumption.
Qed.

Lemma dot_is_bit (pixels : Z -> Z -> Z) (width y x : Z) :
  dot pixels width y x = 0 \/ dot pixels width y x = 1.
Proof.
  unfold dot. destruct (x <? width); [| now left].
  destruct (pixels x y <? threshold_at x y); [now right | now left].
Qed.

Lemma read_bit_raster (pixels : Z -> Z -> Z) (width bytes_per_row height x y : Z) :
  0 <= y < height -> 0 <= x < bytes_per_row * 8 ->
  read_bit (raster pixels width bytes_per_row height) bytes_per_row x y
  = Ok (dot pixels width y x).
Proof.
  intros Hy Hx. unfold read_bit.
  pose proof (Z.div_mod x 8) as Hdm. pose proof (Z.mod_pos_bound x 8) as Hm.
  assert (Hq : 0 <= x / 8 < bytes_per_row) by lia.
  rewrite raster_index by assumption.
  cbn [bind]. rewrite byte_value_bit; [| apply dot_is_bit | lia].
  do 2 f_equal. lia.
Qed.

(** ** The header and the transmission *)

Lemma header_closed (width_bytes height_pixels : Z) :
  header width_bytes height_pixels = Ok (header_bytes width_bytes height_pixels).
Proof.
  unfold header, py_bytes, header_bytes. cbn [forallb].
  rewrite !land_255_is_byte. reflexivity.
Qed.

Lemma land_255_mod (v : Z) : Z.land v 255 = v mod 256.
Proof. change 255 with (Z.ones 8). now rewrite Z.land_ones by lia. Qed.

Lemma shiftr_8_div (v : Z) : Z.shiftr v 8 = v / 256.
Proof. now rewrite Z.shiftr_div_pow2 by lia. Qed.

Lemma low16_split (v : Z) :
  Z.land v 255 + 256 * Z.land (Z.shiftr v 8) 255 = v mod 65536.
Proof.
  rewrite !land_255_mod, shiftr_8_div.
  change 65536 with (256 * 256). rewrite Z.rem_mul_r by lia. reflexivity.
Qed.

(** A run against an environment that opens the device and never fails. *)
Lemma send_to_printer_ok (env : Env) (dev : string) (data_bytes : list Z)
  (width_bytes height_pixels : Z) (w : World) :
  open_error env dev = None ->
  (forall tr ev, call_error env tr ev = None) ->
  send_to_printer env dev data_bytes width_bytes height_pixels w
  = (mkWorld (stdout w)
       (trace w ++ transmission (header_bytes width_bytes height_pixels) data_bytes),
     Ok true).
Proof.
  intros Hopen Hcall.
  unfold send_to_printer, io_bind, lift, with_open, f_write, f_flush, call,
    time_sleep, io_ret.
  rewrite header_closed, Hopen. cbn [stdout trace].
  repeat (rewrite Hcall; cbn [stdout trace]).
  unfold transmission. rewrite <- !app_assoc. reflexivity.
Qed.

Lemma send_to_printer_open_fails (env : Env) (dev : string) (data_bytes : list Z)
  (width_bytes height_pixels : Z) (w : World) (e : exn) :
  open_error env dev = Some e ->
  send_to_printer env dev data_bytes width_bytes height_pixels w = (w, Raise e).
Proof.
  intros Hopen.
  unfold send_to_printer, io_bind, lift, with_open.
  now rewrite header_closed, Hopen.
Qed.

(** Whatever the environment, a run is a prefix of the transmission, and
    it returns [True] only after the whole of it. *)
Lemma send_to_printer_cases (env : Env) (dev : string) (data_bytes : list Z)
  (width_bytes height_pixels : Z) (w : World) :
  let hdr := header_bytes width_bytes height_pixels in
  let '(w', r) := send_to_printer env dev data_bytes width_bytes height_pixels w in
  stdout w' = stdout w /\
  match r with
  | Ok b => b = true /\ trace w' = trace w ++ transmission hdr data_bytes
  | Raise _ => exists n, (n < 8)%nat /\
                 trace w' = trace w ++ firstn n (transmission hdr data_bytes)
  end.
Proof.
  cbv zeta.
  unfold send_to_printer, io_bind, lift, with_open, f_write, f_flush, call,
    time_sleep, io_ret.
  rewrite header_closed.
  destruct (open_error env dev).
  { split; [reflexivity |]. exists 0%nat. split; [lia |]. simpl.
    now rewrite app_nil_r. }
  repeat match goal with
  | |- context [call_error env ?tr ?ev] =>
      destruct (call_error env tr ev); cbn [stdout trace]
  end;
  (split; [reflexivity |]);
  try (split; [reflexivity | rewrite <- !app_assoc; reflexivity]).
  all: unfold transmission.
  - exists 0%nat. split; [lia | simpl; now rewrite app_nil_r].
  - exists 1%nat. split; [lia | reflexivity].
  - exists 3%nat. split; [lia | rewrite <- !app_assoc; reflexivity].
  - exists 4%nat. split; [lia | rewrite <- !app_assoc; reflexivity].
  - exists 6%nat. split; [lia | rewrite <- !app_assoc; reflexivity].
  - exists 7%nat. split; [lia | rewrite <- !app_assoc; reflexivity].
Qed.

Lemma wire_bytes_app (tr1 tr2 : list Event) :
  wire_bytes (tr1 ++ tr2) = wire_bytes tr1 ++ wire_bytes tr2.
Proof. unfold wire_bytes. apply flat_map_app. Qed.

Lemma build_bitmap_from_image_closed (img : Image) :
  PrintTweet.build_bitmap_from_image img
  = Ok (raster (im_load img) (im_width img) (bytes_per_row_of (im_width img))
          (im_height img),
        bytes_per_row_of (im_width img), im_height img).
Proof.
  unfold PrintTweet.build_bitmap_from_image, convert_L.
  apply pack_bitmap_closed.
Qed.

(** * The ditherer *)

(** C6: at a fixed position the decision is antitone in the gray value: a
    darker input (smaller gray) is black wherever a lighter one is. *)
Theorem dither_pixel_monotone (x y g1 g2 : Z) :
  g1 <= g2 ->
  exists d1 d2, dither_pixel g1 x y = Ok d1 /\ dither_pixel g2 x y = Ok d2 /\
                d2 <= d1.
Proof.
  intros Hg. rewrite !dither_pixel_closed.
  do 2 eexists. split; [reflexivity |]. split; [reflexivity |].
  destruct (Z.ltb_spec g1 (threshold_at x y)), (Z.ltb_spec g2 (threshold_at x y));
    lia.
Qed.

Lemma dither_pixel_monotone_witness :
  exists d1 d2, dither_pixel 10 3 5 = Ok d1 /\ dither_pixel 200 3 5 = Ok d2 /\
                d2 <= d1.
Proof. apply (dither_pixel_monotone 3 5 10 200). lia. Defined.

(** C7: [dither_pixel] is a total function of its three arguments with
    value 0 or 1, and shifting either coordinate by 8 leaves it unchanged. *)
Theorem dither_pixel_periodic (gray x y : Z) :
  dither_pixel gray (x + 8) y = dither_pixel gray x y /\
  dither_pixel gray x (y + 8) = dither_pixel gray x y /\
  exists d, dither_pixel gray x y = Ok d /\ (d = 0 \/ d = 1).
Proof.
  rewrite !dither_pixel_closed, threshold_at_period_x, threshold_at_period_y.
  split; [reflexivity |]. split; [reflexivity |].
  eexists. split; [reflexivity |].
  destruct (gray <? threshold_at x y); [now right | now left].
Qed.

(** * The packer *)

(** C1, as stated, fails: the first byte of the payload of the all-black
    384x10 grid is 0x7F, so not every byte is 0xFF. *)
Lemma black_grid_first_byte :
  exists data,
    PrintTweet.build_bitmap_from_image black_384x10 = Ok (data, 48, 10) /\
    py_index data 0 = Ok 0x7F /\
    forallb (Z.eqb 0xFF) data = false.
Proof. eexists. split; [vm_compute; reflexivity |]. split; reflexivity. Qed.

(** C1, amended: the all-black 384x10 grid packs to 0xFF in rows 1-7 and 9
    and to 0x7F in rows 0 and 8, where the matrix cell of the leftmost
    column of every byte is 0 and [0 < 0] is false. *)
Theorem black_grid_payload :
  PrintTweet.build_bitmap_from_image black_384x10
  = Ok (repeat 0x7F 48 ++ repeat 0xFF 336 ++ repeat 0x7F 48 ++ repeat 0xFF 48,
        48, 10).
Proof. vm_compute. reflexivity. Qed.

(** C3: reading the payload back, most significant bit first, gives the
    dither decision of every column below the width and 0 in every padding
    column. *)
Theorem pack_read_back (img : Image) (x y : Z) :
  0 <= y < im_height img ->
  0 <= x < im_width img + (8 - im_width img mod 8) mod 8 ->
  exists data bytes_per_row,
    PrintTweet.build_bitmap_from_image img
    = Ok (data, bytes_per_row, im_height img) /\
    read_bit data bytes_per_row x y
    = (if x <? im_width img then dither_pixel (im_load img x y) x y else Ok 0).
Proof.
  intros Hy Hx. rewrite build_bitmap_from_image_closed.
  do 2 eexists. split; [reflexivity |].
  fold (width_padded_of (im_width img)) in Hx.
  rewrite read_bit_raster by (rewrite ?width_padded_multiple; assumption).
  unfold dot. destruct (x <? im_width img); [| reflexivity].
  now rewrite dither_pixel_closed.
Qed.

Lemma pack_read_back_witness :
  exists data bytes_per_row,
    PrintTweet.build_bitmap_from_image ramp_385x2 = Ok (data, bytes_per_row, 2) /\
    read_bit data bytes_per_row 384 1 = dither_pixel 129 384 1.
Proof. apply (pack_read_back ramp_385x2 384 1); simpl; lia. Defined.

(** C8: the row is padded to [width + (8 - width mod 8) mod 8] decisions,
    a row takes that many bits divided by 8 bytes, the payload has
    [bytes_per_row * height] bytes, and at width 385 the padded width is
    392, a row takes 49 bytes and columns 385-391 read back as white. *)
Theorem pack_sizes (img : Image) :
  0 <= im_width img -> 0 <= im_height img ->
  let width := im_width img in
  let width_padded := width + (8 - width mod 8) mod 8 in
  let bytes_per_row := width_padded / 8 in
  (forall y, exists row_bits,
      build_row_bits (im_load img) width width_padded y = Ok row_bits /\
      len row_bits = width_padded) /\
  exists data,
    PrintTweet.build_bitmap_from_image img
    = Ok (data, bytes_per_row, im_height img) /\
    len data = bytes_per_row * im_height img /\
    (width = 385 ->
     width_padded = 392 /\ bytes_per_row = 49 /\
     forall x y, 385 <= x <= 391 -> 0 <= y < im_height img ->
                 read_bit data bytes_per_row x y = Ok 0).
Proof.
  intros Hw Hh width width_padded bytes_per_row.
  assert (Hwp : 0 <= width_padded).
  { subst width_padded. pose proof (Z.mod_pos_bound (8 - width mod 8) 8).
    subst width. lia. }
  assert (Hbpr : 0 <= bytes_per_row) by (apply Z.div_pos; lia).
  split.
  - intros y. rewrite build_row_bits_closed. eexists. split; [reflexivity |].
    unfold len. rewrite length_map, range_length. lia.
  - rewrite build_bitmap_from_image_closed.
    change (bytes_per_row_of (im_width img)) with bytes_per_row.
    eexists. split; [reflexivity |]. split.
    + apply raster_length; assumption.
    + intros H385.
      assert (E1 : width_padded = 392) by (subst width_padded; now rewrite H385).
      assert (E2 : bytes_per_row = 49) by (subst bytes_per_row; now rewrite E1).
      split; [assumption |]. split; [assumption |].
      intros x y Hx Hy.
      rewrite read_bit_raster by lia.
      unfold dot. fold width.
      destruct (Z.ltb_spec x width); [lia | reflexivity].
Qed.

Lemma pack_sizes_witness :
  exists data,
    PrintTweet.build_bitmap_from_image ramp_385x2 = Ok (data, 49, 2) /\
    len data = 98 /\
    read_bit data 49 385 0 = Ok 0 /\ read_bit data 49 391 1 = Ok 0.
Proof.
  destruct (pack_sizes ramp_385x2) as [_ (data & Hb & Hl & H385)];
    [simpl; lia | simpl; lia |].
  destruct (H385 eq_refl) as (_ & _ & Hpad).
  exists data. split; [exact Hb |]. split; [exact Hl |].
  split; apply Hpad; simpl; lia.
Defined.

(** * The framer *)

(** C2, as stated, fails: a row width of 65584 bytes (65536 + 48) raises
    nothing, gives the header of 48, and the transmission returns [True]. *)
Lemma header_wraps_at_65536 :
  header 65584 200 = Ok [0x1D; 0x76; 0x30; 0x00; 0x30; 0x00; 0xC8; 0x00] /\
  header 65584 200 = header 48 200 /\
  snd (send_to_printer env_ok DEV [] 65584 200 world0) = Ok true.
Proof. repeat split; reflexivity. Qed.

(** C2, amended: building the header never fails; it is the three opcode
    bytes, the mode 0 and each dimension reduced to its low 16 bits, low
    byte first, so a dimension in 0..65535 is encoded exactly and any other
    one is encoded modulo 65536; with a device that accepts every call the
    transmission returns [True] for every pair of dimensions. *)
Theorem header_low_16_bits (width_bytes height_pixels : Z) :
  exists xL xH yL yH,
    header width_bytes height_pixels
    = Ok [0x1D; 0x76; 0x30; 0x00; xL; xH; yL; yH] /\
    (0 <= xL < 256 /\ 0 <= xH < 256 /\ 0 <= yL < 256 /\ 0 <= yH < 256) /\
    xL + 256 * xH = width_bytes mod 65536 /\
    yL + 256 * yH = height_pixels mod 65536 /\
    forall dev data w,
      snd (send_to_printer env_ok dev data width_bytes height_pixels w) = Ok true.
Proof.
  exists (Z.land width_bytes 255), (Z.land (Z.shiftr width_bytes 8) 255),
    (Z.land height_pixels 255), (Z.land (Z.shiftr height_pixels 8) 255).
  split; [apply header_closed |]. split.
  - rewrite !land_255_mod.
    repeat split; try apply Z.mod_pos_bound; lia.
  - split; [apply low16_split |]. split; [apply low16_split |].
    intros dev data w. now rewrite send_to_printer_ok.
Qed.

(** C4: with 48 bytes per row and 200 rows the device receives the
    newline, the two reset bytes, the header 1D 76 30 00 30 00 C8 00 and
    then the 9600 payload bytes, with nothing between header and payload
    and nothing after. *)
Theorem frame_48_200 (env : Env) (dev : string) (data : list Z) (w w' : World) :
  len data = 48 * 200 ->
  send_to_printer env dev data 48 200 w = (w', Ok true) ->
  header 48 200 = Ok [0x1D; 0x76; 0x30; 0x00; 0x30; 0x00; 0xC8; 0x00] /\
  wire_bytes (trace w')
  = wire_bytes (trace w) ++ [0x0A] ++ [0x1B; 0x40]
    ++ [0x1D; 0x76; 0x30; 0x00; 0x30; 0x00; 0xC8; 0x00] ++ data /\
  len data = 9600.
Proof.
  intros Hlen Hsend. split; [reflexivity |].
  pose proof (send_to_printer_cases env dev data 48 200 w) as H.
  cbv zeta in H. rewrite Hsend in H. destruct H as (_ & _ & Htr).
  rewrite Htr, wire_bytes_app. split; [| lia].
  f_equal. simpl. now rewrite app_nil_r.
Qed.

Lemma frame_48_200_witness :
  wire_bytes (trace (fst (send_to_printer env_ok DEV (repeat 0xFF (Z.to_nat 9600)) 48 200 world0)))
  = [0x0A; 0x1B; 0x40; 0x1D; 0x76; 0x30; 0x00; 0x30; 0x00; 0xC8; 0x00]
    ++ repeat 0xFF (Z.to_nat 9600).
Proof.
  refine (proj1 (proj2 (frame_48_200 env_ok DEV (repeat 0xFF (Z.to_nat 9600)) world0
                          (fst (send_to_printer env_ok DEV (repeat 0xFF (Z.to_nat 9600))
                                  48 200 world0)) _ _))).
  - vm_compute. reflexivity.
  - vm_compute. reflexivity.
Defined.

(** * The transmitter *)

(** C9: a transmission that returns [True] has made exactly these calls,
    in this order: write the newline, flush, sleep 20 ms, write the reset
    bytes and the 8 header bytes in one call, flush, sleep 20 ms, write the
    payload, flush. *)
Theorem send_to_printer_sequence (env : Env) (dev : string) (data_bytes : list Z)
  (width_bytes height_pixels : Z) (w w' : World) :
  send_to_printer env dev data_bytes width_bytes height_pixels w = (w', Ok true) ->
  exists hdr,
    header width_bytes height_pixels = Ok hdr /\ len hdr = 8 /\
    trace w' = trace w ++
      [EvWrite [0x0A]; EvFlush; EvSleep 20;
       EvWrite ([0x1B; 0x40] ++ hdr); EvFlush; EvSleep 20;
       EvWrite data_bytes; EvFlush].
Proof.
  intros Hsend. exists (header_bytes width_bytes height_pixels).
  split; [apply header_closed |]. split; [reflexivity |].
  pose proof (send_to_printer_cases env dev data_bytes width_bytes height_pixels w)
    as H.
  cbv zeta in H. rewrite Hsend in H. now destruct H as (_ & _ & Htr).
Qed.

Lemma send_to_printer_sequence_witness :
  exists hdr,
    header 48 1 = Ok hdr /\ len hdr = 8 /\
    trace (fst (send_to_printer env_ok DEV (repeat 0 48) 48 1 world0))
    = [] ++ [EvWrite [0x0A]; EvFlush; EvSleep 20;
             EvWrite ([0x1B; 0x40] ++ hdr); EvFlush; EvSleep 20;
             EvWrite (repeat 0 48); EvFlush].
Proof.
  apply (send_to_printer_sequence env_ok DEV (repeat 0 48) 48 1 world0).
  vm_compute. reflexivity.
Defined.

(** * The tweet card *)

Lemma Image_new_width (w h color : Z) (img : Image) :
  Image_new w h color = Ok img -> im_width img = w.
Proof.
  unfold Image_new. destruct ((w <? 0) || (h <? 0)); [discriminate |].
  intros [= <-]. reflexivity.
Qed.

Lemma draw_lines_width (lib : Lib) (font : Font lib) (lbs : list (string * BBox)) :
  forall (img : Image) (y_offset : Z),
    im_width
      (fst (fold_left
              (fun (st : Image * Z) (lb : string * BBox) =>
                 let '(img, y_offset) := st in
                 let '(line, bbox) := lb in
                 (Draw_text lib img (0, y_offset) line font 0,
                  y_offset + (PrintTweet.bbox_y1 bbox - PrintTweet.bbox_y0 bbox) + 4))
              lbs (img, y_offset)))
    = im_width img.
Proof.
  induction lbs as [| [line bbox] lbs IH]; intros img y_offset; simpl.
  - reflexivity.
  - now rewrite IH.
Qed.

Lemma render_tweet_width (lib : Lib) (profile_path username text date : string)
  (img : Image) :
  PrintTweet.render_tweet lib profile_path username text date = Ok img ->
  im_width img = WIDTH.
Proof.
  unfold PrintTweet.render_tweet.
  destruct (Image_open lib profile_path) as [pimg0 |]; [| discriminate].
  cbn [bind].
  destruct (convert lib pimg0) as [pimg1 |]; [| discriminate]. cbn [bind].
  destruct (int_scale_checked lib 40 (im_width pimg1) (im_height pimg1))
    as [target_w |]; [| discriminate]. cbn [bind].
  destruct (resize lib pimg1 (target_w, 40) BICUBIC) as [pimg |]; [| discriminate].
  cbn [bind].
  destruct (PrintTweet.load_fonts lib) as [[font_user font_text] font_date].
  match goal with
  | |- context [Image_new WIDTH ?h 255] =>
      destruct (Image_new WIDTH h 255) as [canvas |] eqn:Hnew; [| discriminate]
  end.
  cbn [bind].
  match goal with
  | |- context [fold_left ?step ?lbs (?img0, ?y0)] =>
      pose proof (draw_lines_width lib font_text lbs img0 y0) as Hfold;
      destruct (fold_left step lbs (img0, y0)) as [img1 y1]
  end.
  intros [= <-]. cbn [fst] in Hfold. cbn [Draw_text im_width] in *.
  rewrite Hfold. now apply Image_new_width in Hnew.
Qed.

(** C10: every canvas returned by [render_tweet] is 384 pixels wide,
    whatever the profile image, user name, text and date, so the packer
    adds no padding column and a row takes 48 bytes. *)
Theorem tweet_canvas_width (lib : Lib) (profile_path username text date : string)
  (img : Image) :
  PrintTweet.render_tweet lib profile_path username text date = Ok img ->
  im_width img = 384 /\
  (8 - im_width img mod 8) mod 8 = 0 /\
  exists data,
    PrintTweet.build_bitmap_from_image img = Ok (data, 48, im_height img).
Proof.
  intros Hrender. apply render_tweet_width in Hrender.
  change WIDTH with 384 in Hrender.
  split; [assumption |]. split; [now rewrite Hrender |].
  rewrite build_bitmap_from_image_closed, Hrender.
  eexists. reflexivity.
Qed.

Lemma tweet_canvas_width_witness :
  exists img,
    PrintTweet.render_tweet lib_plain "face.png" "rocq" "hello world" "4 Nov"
    = Ok img /\
    im_width img = 384 /\
    (8 - im_width img mod 8) mod 8 = 0 /\
    exists data,
      PrintTweet.build_bitmap_from_image img = Ok (data, 48, im_height img).
Proof.
  eexists. split.
  - reflexivity.
  - apply (tweet_canvas_width lib_plain "face.png" "rocq" "hello world" "4 Nov").
    reflexivity.
Defined.

(** * The entry points and a missing device *)

Lemma try_send_stdout (env : Env) (dev : string) (data : list Z)
  (width_bytes height : Z) (ok_line fail_prefix : string) (w : World) :
  let w' := fst (try_except
                   (send_to_printer env dev data width_bytes height ;;;
                    print ok_line)
                   (fun e => print (fail_prefix ++ exn_str e)) w) in
  stdout w' = stdout w ++ [ok_line] \/
  (exists e, stdout w' = stdout w ++ [(fail_prefix ++ exn_str e)%string]) \/
  stdout w' = stdout w.
Proof.
  cbv zeta. unfold try_except, io_bind.
  pose proof (send_to_printer_cases env dev data width_bytes height w) as H.
  cbv zeta in H.
  destruct (send_to_printer env dev data width_bytes height w) as [w1 [b | e]];
    destruct H as [Hs _].
  - left. simpl. now rewrite Hs.
  - destruct e as [| | | msg | code]; simpl; rewrite Hs;
      [ right; left; exists IndexError
      | right; left; exists ValueError
      | right; left; exists ZeroDivisionError
      | right; left; exists (OSError msg)
      | right; right ]; reflexivity.
Qed.

(** [print_image.py] checks the device node before it transmits: with the
    node absent it reports that and makes no call on the device. *)
Lemma print_image_main_device_absent (lib : Lib) (env : Env)
  (prog image_path : string) (img : AnyImage lib) (data : list Z)
  (width_bytes height : Z) :
  path_exists env image_path = true ->
  path_exists env DEV = false ->
  Image_open lib image_path = Ok img ->
  PrintImage.build_bitmap_from_image lib img = Ok (data, width_bytes, height) ->
  let w := fst (PrintImage.main lib env [prog; image_path] world0) in
  trace w = [] /\ printed device_not_found w = true.
Proof.
  intros Himg Hdev Hopen Hbuild. cbv zeta.
  unfold PrintImage.main, io_bind, lift.
  rewrite Himg, Hopen, Hbuild. cbn -[str_of_int String.append].
  rewrite Hdev. cbn -[str_of_int String.append].
  split; [reflexivity |].
  unfold printed. cbn -[str_of_int String.append].
  apply orb_true_iff. right. reflexivity.
Qed.

Lemma print_tweet_main_sends (lib : Lib) (env : Env)
  (prog profile_path username text date : string) (img : Image) :
  PrintTweet.render_tweet lib profile_path username text date = Ok img ->
  open_error env DEV = None ->
  (forall tr ev, call_error env tr ev = None) ->
  let bytes_per_row := bytes_per_row_of (im_width img) in
  let data := raster (im_load img) (im_width img) bytes_per_row (im_height img) in
  PrintTweet.main lib env [prog; profile_path; username; text; date] world0
  = (mkWorld
       [("Rendering tweet: " ++ username)%string;
        ("Width: " ++ str_of_int WIDTH ++ " Bytes/row: "
         ++ str_of_int bytes_per_row ++ " Height: "
         ++ str_of_int (im_height img))%string;
        "Printed OK."%string]
       (transmission (header_bytes bytes_per_row (im_height img)) data),
     Ok tt).
Proof.
  intros Hrender Hopen Hcall. cbv zeta.
  unfold PrintTweet.main, io_bind, lift. rewrite Hrender.
  rewrite build_bitmap_from_image_closed.
  unfold print, try_except.
  rewrite send_to_printer_ok by assumption. reflexivity.
Qed.

Lemma print_tweet_main_open_fails (lib : Lib) (env : Env)
  (prog profile_path username text date msg : string) (img : Image) :
  PrintTweet.render_tweet lib profile_path username text date = Ok img ->
  open_error env DEV = Some (OSError msg) ->
  PrintTweet.main lib env [prog; profile_path; username; text; date] world0
  = (mkWorld
       [("Rendering tweet: " ++ username)%string;
        ("Width: " ++ str_of_int WIDTH ++ " Bytes/row: "
         ++ str_of_int (bytes_per_row_of (im_width img)) ++ " Height: "
         ++ str_of_int (im_height img))%string;
        ("Print failed: " ++ msg)%string]
       [],
     Ok tt).
Proof.
  intros Hrender Hopen.
  unfold PrintTweet.main, io_bind, lift. rewrite Hrender.
  rewrite build_bitmap_from_image_closed.
  unfold print, try_except.
  rewrite send_to_printer_open_fails with (e := OSError msg) by assumption.
  reflexivity.
Qed.

(** C5 on [print_tweet.py]: its [main] never reports a missing device.
    With the device node absent it still calls [send_to_printer]: where
    [open] creates the file all three writes are made and it reports
    success, and where [open] raises it reports a failed print. *)
Theorem print_tweet_main_device_absent (lib : Lib)
  (prog profile_path username text date : string) :
  let argv := [prog; profile_path; username; text; date] in
  (forall env,
      printed device_not_found (fst (PrintTweet.main lib env argv world0)) = false) /\
  match PrintTweet.render_tweet lib profile_path username text date with
  | Ok img =>
      let created := fst (PrintTweet.main lib env_absent_created argv world0) in
      let failed := fst (PrintTweet.main lib env_absent_no_dir argv world0) in
      path_exists env_absent_created DEV = false /\
      count_writes (trace created) = 3%nat /\
      printed "Printed OK." created = true /\
      path_exists env_absent_no_dir DEV = false /\
      trace failed = [] /\
      printed ("Print failed: " ++ no_such_file) failed = true
  | Raise _ => True
  end.
Proof.
  cbv zeta. split.
  - intros env. unfold PrintTweet.main, io_bind at 1 2, lift.
    destruct (PrintTweet.render_tweet lib profile_path username text date)
      as [img |]; [| reflexivity].
    rewrite build_bitmap_from_image_closed.
    unfold io_bind at 1 2, print at 1 2. cbn [stdout trace world0 app].
    match goal with
    | |- printed _ (fst (try_except
                           (io_bind (send_to_printer _ _ ?d ?wb ?ht) ?k) ?hd ?w))
         = false =>
        pose proof (try_send_stdout env DEV d wb ht "Printed OK." "Print failed: " w)
          as H;
        cbv zeta in H;
        destruct (fst (try_except (io_bind (send_to_printer env DEV d wb ht) k) hd w))
          as [out tr]
    end.
    unfold printed. cbn [stdout] in *.
    destruct H as [-> | [[e ->] | ->]]; reflexivity.
  - destruct (PrintTweet.render_tweet lib profile_path username text date)
      as [img |] eqn:Hrender; [| exact I].
    rewrite (print_tweet_main_sends lib env_absent_created prog _ _ _ _ img Hrender)
      by reflexivity.
    rewrite (print_tweet_main_open_fails lib env_absent_no_dir prog _ _ _ _
               no_such_file img Hrender) by reflexivity.
    repeat split; reflexivity.
Qed.

(** The same on a run with the stand-in library, four arguments and the
    device node absent.  The card is 384x152. *)
Lemma render_tweet_plain :
  exists img,
    PrintTweet.render_tweet lib_plain "face.png" "rocq" "hello world" "4 Nov"
    = Ok img /\ im_width img = 384 /\ im_height img = 152.
Proof. eexists. split; [reflexivity | split; reflexivity]. Qed.

(** Where [open] creates the file the script sends the 11 framing bytes
    and the 48 * 152 payload bytes and reports success. *)
Example print_tweet_run_file_created :
  let argv := ["print_tweet.py"; "face.png"; "rocq"; "hello world"; "4 Nov"]%string in
  let created := fst (PrintTweet.main lib_plain env_absent_created argv world0) in
  stdout created
  = ["Rendering tweet: rocq"; "Width: 384 Bytes/row: 48 Height: 152";
     "Printed OK."]%string /\
  count_writes (trace created) = 3%nat /\
  len (wire_bytes (trace created)) = 11 + 48 * 152.
Proof.
  cbv zeta. destruct render_tweet_plain as (img & Hr & Hw & Hh).
  pose proof (print_tweet_main_sends lib_plain env_absent_created
                "print_tweet.py" _ _ _ _ img Hr eq_refl (fun _ _ => eq_refl)) as Hrun.
  cbv zeta in Hrun. rewrite Hrun.
  cbn [fst stdout trace]. rewrite Hw, Hh.
  split; [reflexivity |]. split; [reflexivity |].
  unfold transmission, wire_bytes, len. cbn [flat_map].
  rewrite !length_app.
  pose proof (raster_length (im_load img) 384 (bytes_per_row_of 384) 152) as Hl.
  unfold len in Hl. cbn [List.length INIT header_bytes].
  rewrite !Nat2Z.inj_add, Hl by (vm_compute; discriminate).
  reflexivity.
Qed.

(** Where [open] raises the script reports a failed print. *)
Example print_tweet_run_open_raises :
  let argv := ["print_tweet.py"; "face.png"; "rocq"; "hello world"; "4 Nov"]%string in
  let failed := fst (PrintTweet.main lib_plain env_absent_no_dir argv world0) in
  stdout failed
  = ["Rendering tweet: rocq"; "Width: 384 Bytes/row: 48 Height: 152";
     "Print failed: [Errno 2] No such file or directory: '/dev/usb/lp0'"]%string /\
  trace failed = [].
Proof.
  cbv zeta. destruct render_tweet_plain as (img & Hr & Hw & Hh).
  pose proof (print_tweet_main_open_fails lib_plain env_absent_no_dir
                "print_tweet.py" _ _ _ _ no_such_file img Hr eq_refl) as Hrun.
  rewrite Hrun. cbn [fst stdout trace]. rewrite Hw, Hh.
  split; reflexivity.
Qed.

(** * Further properties *)

(** ** The ditherer: tone range *)

Lemma threshold_at_cases (x y : Z) :
  (threshold_at x y = 0 /\ x mod 8 = 0 /\ y mod 8 = 0) \/
  (3 <= threshold_at x y <= 251 /\ (x mod 8 <> 0 \/ y mod 8 <> 0)).
Proof.
  unfold threshold_at.
  destruct (mod8_cases y) as [Hy | [Hy | [Hy | [Hy | [Hy | [Hy | [Hy | Hy]]]]]]];
    rewrite Hy;
    destruct (mod8_cases x) as [Hx | [Hx | [Hx | [Hx | [Hx | [Hx | [Hx | Hx]]]]]]];
    rewrite Hx;
    match goal with
    | |- context [int_scaled ?t] =>
        let v := eval vm_compute in (int_scaled t) in
        change (int_scaled t) with v
    end; lia.
Qed.

Lemma threshold_at_mod (x y : Z) :
  threshold_at x y = threshold_at (x mod 8) (y mod 8).
Proof. unfold threshold_at. now rewrite !Z.mod_mod by lia. Qed.

(** X1: a gray of 251 or more is white at every position. *)
Theorem dither_pixel_white (gray x y : Z) :
  251 <= gray -> dither_pixel gray x y = Ok 0.
Proof.
  intros Hg. rewrite dither_pixel_closed.
  destruct (threshold_at_cases x y) as [(H0 & _) | (Hb & _)];
    destruct (Z.ltb_spec gray (threshold_at x y)); try reflexivity; lia.
Qed.

Lemma dither_pixel_white_witness :
  dither_pixel 255 7 0 = Ok 0 /\ dither_pixel 250 7 0 = Ok 1.
Proof. split; [apply (dither_pixel_white 255 7 0); lia | reflexivity]. Defined.

(** X2: a gray of 0, 1 or 2 is black everywhere except where both
    coordinates are multiples of 8, the one cell of the matrix that is 0. *)
Theorem dither_pixel_darkest (gray x y : Z) :
  0 <= gray <= 2 ->
  dither_pixel gray x y
  = Ok (if (x mod 8 =? 0) && (y mod 8 =? 0) then 0 else 1).
Proof.
  intros Hg. rewrite dither_pixel_closed.
  destruct (threshold_at_cases x y) as [(H0 & Hx & Hy) | (Hb & Hxy)].
  - rewrite H0, Hx, Hy. simpl.
    destruct (Z.ltb_spec gray 0); [lia | reflexivity].
  - destruct (Z.ltb_spec gray (threshold_at x y)); [| lia].
    destruct (Z.eqb_spec (x mod 8) 0), (Z.eqb_spec (y mod 8) 0);
      simpl; try reflexivity.
    destruct Hxy; contradiction.
Qed.

Lemma dither_pixel_darkest_witness :
  dither_pixel 2 16 8 = Ok 0 /\ dither_pixel 2 17 8 = Ok 1.
Proof.
  split; [apply (dither_pixel_darkest 2 16 8) | apply (dither_pixel_darkest 2 17 8)];
    lia.
Defined.

Lemma sum_from (l : list Z) (a : Z) :
  fold_left Z.add l a = a + fold_left Z.add l 0.
Proof.
  revert a. induction l as [| x l IH]; intros a; simpl; [lia |].
  rewrite (IH (a + x)), (IH x). lia.
Qed.

Lemma sum_flat_map {A : Type} (g : A -> list Z) (l : list A) :
  fold_left Z.add (flat_map g l) 0
  = fold_left Z.add (map (fun y => fold_left Z.add (g y) 0) l) 0.
Proof.
  induction l as [| y l IH]; simpl; [reflexivity |].
  rewrite fold_left_app, sum_from, IH.
  rewrite (sum_from _ (fold_left Z.add (g y) 0)). reflexivity.
Qed.

(** A sum over the eight residues does not depend on where it starts. *)
Lemma sum8_rotate (f : Z -> Z) (c : Z) :
  0 <= c < 8 ->
  fold_left Z.add (map (fun d => f ((c + d) mod 8)) (range 8)) 0
  = fold_left Z.add (map f (range 8)) 0.
Proof.
  intros Hc. change (range 8) with [0; 1; 2; 3; 4; 5; 6; 7].
  assert (E : c = 0 \/ c = 1 \/ c = 2 \/ c = 3 \/ c = 4 \/ c = 5 \/ c = 6 \/ c = 7)
    by lia.
  destruct E as [-> | [-> | [-> | [-> | [-> | [-> | [-> | ->]]]]]]];
    cbn [map fold_left];
    repeat match goal with
    | |- context [(?a + ?b) mod 8] =>
        let v := eval vm_compute in ((a + b) mod 8) in
        change ((a + b) mod 8) with v
    end; lia.
Qed.

Lemma tile_black_rows (gray x0 y0 : Z) :
  tile_black gray x0 y0 = fold_left Z.add (map (row_black gray) (range 8)) 0.
Proof.
  rewrite <- (sum8_rotate (row_black gray) (y0 mod 8))
    by (apply Z.mod_pos_bound; lia).
  unfold tile_black. rewrite sum_flat_map. f_equal.
  apply map_ext. intros dy. unfold row_black.
  rewrite <- (sum8_rotate
                (fun r => if gray <? threshold_at r ((y0 mod 8 + dy) mod 8)
                          then 1 else 0)
                (x0 mod 8)) by (apply Z.mod_pos_bound; lia).
  f_equal. apply map_ext. intros dx.
  rewrite dither_pixel_closed. cbn [dot_value].
  rewrite (threshold_at_mod (x0 + dx)), (threshold_at_mod _ ((y0 mod 8 + dy) mod 8)).
  now rewrite !Z.add_mod_idemp_l, !Z.mod_mod by lia.
Qed.

Lemma tile_black_origin (gray x0 y0 : Z) :
  tile_black gray x0 y0 = tile_black gray 0 0.
Proof. now rewrite (tile_black_rows gray x0 y0), (tile_black_rows gray 0 0). Qed.

Lemma tile_black_table :
  forallb
    (fun gray =>
       tile_black gray 0 0 =? Z.max 0 (64 - (64 * (gray + 1) + 254) / 255))
    (range 256)
  = true.
Proof. vm_compute. reflexivity. Qed.

(** X3: in any 8x8 window of a flat field of gray [g] in 0..255 exactly
    [64 - ceil(64 (g + 1) / 255)] dots are black (none from 251 up): the
    ink falls by one dot for about every four gray levels, from 63 of 64
    at gray 0. *)
Theorem tile_black_count (gray x0 y0 : Z) :
  0 <= gray <= 255 ->
  tile_black gray x0 y0 = Z.max 0 (64 - (64 * (gray + 1) + 254) / 255).
Proof.
  intros Hg. rewrite tile_black_origin.
  pose proof tile_black_table as Ht.
  rewrite forallb_forall in Ht.
  specialize (Ht gray (proj2 (range_In 256 gray) ltac:(lia))).
  now apply Z.eqb_eq in Ht.
Qed.

Lemma tile_black_count_witness :
  tile_black 0 5 11 = 63 /\ tile_black 128 5 11 = 31 /\ tile_black 255 5 11 = 0.
Proof.
  split; [apply (tile_black_count 0 5 11); lia |].
  split; [apply (tile_black_count 128 5 11); lia |].
  apply (tile_black_count 255 5 11); lia.
Defined.

(** ** The packer: what it reads, what it writes *)

Lemma byte_value_ext (f g : Z -> Z) (byte_i : Z) :
  (forall k, 0 <= k < 8 -> f (byte_i * 8 + k) = g (byte_i * 8 + k)) ->
  byte_value f byte_i = byte_value g byte_i.
Proof.
  intros Hfg. unfold byte_value. do 2 f_equal.
  apply map_ext_in. intros k Hk. apply range_In in Hk. now apply Hfg.
Qed.

Lemma raster_ext (px1 px2 : Z -> Z -> Z) (width bytes_per_row height : Z) :
  (forall x y, 0 <= y < height -> 0 <= x < bytes_per_row * 8 ->
               dot px1 width y x = dot px2 width y x) ->
  raster px1 width bytes_per_row height = raster px2 width bytes_per_row height.
Proof.
  intros Hdot. unfold raster, raster_row. f_equal.
  apply map_ext_in. intros y Hy. apply range_In in Hy.
  apply map_ext_in. intros i Hi. apply range_In in Hi.
  apply byte_value_ext. intros k Hk. apply Hdot; lia.
Qed.

(** X4: the packer reads only the pixels inside the image: two images of
    one size that agree there give the same payload. *)
Theorem pack_reads_in_range (img1 img2 : Image) :
  im_width img1 = im_width img2 ->
  im_height img1 = im_height img2 ->
  (forall x y, 0 <= x < im_width img1 -> 0 <= y < im_height img1 ->
               im_load img1 x y = im_load img2 x y) ->
  PrintTweet.build_bitmap_from_image img1 = PrintTweet.build_bitmap_from_image img2.
Proof.
  intros Hw Hh Hpx. rewrite !build_bitmap_from_image_closed, <- Hw, <- Hh.
  do 2 f_equal. f_equal. apply raster_ext. intros x y Hy Hx.
  unfold dot.
  destruct (Z.ltb_spec x (im_width img1)); [| reflexivity].
  now rewrite Hpx by lia.
Qed.

Lemma pack_reads_in_range_witness :
  PrintTweet.build_bitmap_from_image (mkImage 10 3 (fun x y => x + y))
  = PrintTweet.build_bitmap_from_image
      (mkImage 10 3 (fun x y => if x <? 10 then x + y else 0)).
Proof.
  apply pack_reads_in_range; simpl; try reflexivity.
  intros x y Hx Hy. destruct (Z.ltb_spec x 10); [reflexivity | lia].
Defined.

Lemma raster_all_zero (pixels : Z -> Z -> Z) (width bytes_per_row height : Z) :
  (forall x y, 0 <= y < height -> 0 <= x < bytes_per_row * 8 ->
               dot pixels width y x = 0) ->
  Forall (fun b => b = 0) (raster pixels width bytes_per_row height).
Proof.
  intros Hdot. unfold raster. apply Forall_concat, Forall_map, Forall_forall.
  intros y Hy. apply range_In in Hy.
  unfold raster_row. apply Forall_map, Forall_forall.
  intros i Hi. apply range_In in Hi.
  rewrite (byte_value_ext _ (fun _ => 0)); [reflexivity |].
  intros k Hk. apply Hdot; lia.
Qed.

(** X5: an image whose pixels are all 251 or lighter packs to a payload of
    zero bytes only, whatever its size. *)
Theorem pack_light_image (img : Image) :
  (forall x y, 0 <= x < im_width img -> 0 <= y < im_height img ->
               251 <= im_load img x y) ->
  exists data bytes_per_row,
    PrintTweet.build_bitmap_from_image img
    = Ok (data, bytes_per_row, im_height img) /\
    Forall (fun b => b = 0) data.
Proof.
  intros Hpx. rewrite build_bitmap_from_image_closed.
  do 2 eexists. split; [reflexivity |].
  apply raster_all_zero. intros x y Hy Hx. unfold dot.
  destruct (Z.ltb_spec x (im_width img)); [| reflexivity].
  destruct (threshold_at_cases x y) as [(H0 & _) | (Hb & _)];
    destruct (Z.ltb_spec (im_load img x y) (threshold_at x y));
    try reflexivity; specialize (Hpx x y ltac:(lia) ltac:(lia)); lia.
Qed.

Lemma pack_light_image_witness :
  exists data bytes_per_row,
    PrintTweet.build_bitmap_from_image (mkImage 384 10 (fun _ _ => 255))
    = Ok (data, bytes_per_row, 10) /\
    Forall (fun b => b = 0) data.
Proof.
  apply (pack_light_image (mkImage 384 10 (fun _ _ => 255))).
  simpl. intros. lia.
Defined.

(** X6: a row takes [ceil(width / 8)] bytes: the padding is the least
    number of columns, fewer than 8, that fills the last byte. *)
Theorem pack_bytes_per_row_ceil (img : Image) :
  exists data bytes_per_row,
    PrintTweet.build_bitmap_from_image img
    = Ok (data, bytes_per_row, im_height img) /\
    bytes_per_row = (im_width img + 7) / 8 /\
    im_width img <= 8 * bytes_per_row < im_width img + 8.
Proof.
  rewrite build_bitmap_from_image_closed. do 2 eexists.
  split; [reflexivity |].
  pose proof (width_padded_multiple (im_width img)) as Hm.
  unfold width_padded_of in Hm.
  pose proof (Z.mod_pos_bound (8 - im_width img mod 8) 8 ltac:(lia)) as Hp.
  split; [| lia].
  apply Z.div_unique
    with (r := im_width img + 7 - 8 * bytes_per_row_of (im_width img)); lia.
Qed.

(** X7: for an image with no negative size the payload is empty exactly
    when the image has no pixel. *)
Theorem pack_empty_iff (img : Image) :
  0 <= im_width img -> 0 <= im_height img ->
  exists data bytes_per_row,
    PrintTweet.build_bitmap_from_image img
    = Ok (data, bytes_per_row, im_height img) /\
    (data = [] <-> im_width img = 0 \/ im_height img = 0).
Proof.
  intros Hw Hh. rewrite build_bitmap_from_image_closed. do 2 eexists.
  split; [reflexivity |].
  pose proof (width_padded_multiple (im_width img)) as Hm.
  unfold width_padded_of in Hm.
  pose proof (Z.mod_pos_bound (8 - im_width img mod 8) 8 ltac:(lia)) as Hp.
  assert (Hb : 0 <= bytes_per_row_of (im_width img)) by lia.
  pose proof (raster_length (im_load img) (im_width img) _ _ Hb Hh) as Hl.
  unfold len in Hl. split.
  - intros E. rewrite E in Hl. simpl in Hl. nia.
  - intros E.
    destruct (raster (im_load img) (im_width img)
                (bytes_per_row_of (im_width img)) (im_height img)) as [| b l];
      [reflexivity |].
    simpl List.length in Hl. nia.
Qed.

Lemma pack_empty_iff_witness :
  exists data bytes_per_row,
    PrintTweet.build_bitmap_from_image (mkImage 0 5 (fun _ _ => 0))
    = Ok (data, bytes_per_row, 5) /\
    (data = [] <-> 0 = 0 \/ 5 = 0).
Proof. apply (pack_empty_iff (mkImage 0 5 (fun _ _ => 0))); simpl; lia. Defined.

Lemma seq_from (a b : nat) : seq a b = map (Nat.add a) (seq 0 b).
Proof.
  induction a as [| a IH]; simpl.
  - symmetry. apply map_id.
  - rewrite <- seq_shift, IH, map_map. reflexivity.
Qed.

Lemma range_app (a b : Z) :
  0 <= a -> 0 <= b ->
  range (a + b) = range a ++ map (fun y => y + a) (range b).
Proof.
  intros Ha Hb. unfold range.
  rewrite Z2Nat.inj_add, seq_app, map_app by assumption. f_equal.
  simpl. rewrite seq_from, !map_map.
  apply map_ext. intros n. rewrite Nat2Z.inj_add, Z2Nat.id by assumption. lia.
Qed.

Lemma threshold_at_rows (x y a : Z) :
  a mod 8 = 0 -> threshold_at x (y + a) = threshold_at x y.
Proof.
  intros Ha. unfold threshold_at.
  now rewrite Z.add_mod, Ha, Z.add_0_r, Z.mod_mod by lia.
Qed.

(** X8: an image can be packed in strips: when the first strip has a
    multiple of 8 rows, the payload of the whole image is the payload of
    the strip above followed by the payload of the strip below, each
    packed as an image of its own. *)
Theorem pack_strips (img : Image) (a b : Z) :
  0 <= a -> 0 <= b -> a mod 8 = 0 -> im_height img = a + b ->
  exists top bottom bytes_per_row,
    PrintTweet.build_bitmap_from_image (strip img 0 a) = Ok (top, bytes_per_row, a) /\
    PrintTweet.build_bitmap_from_image (strip img a b) = Ok (bottom, bytes_per_row, b) /\
    PrintTweet.build_bitmap_from_image img = Ok (top ++ bottom, bytes_per_row, a + b).
Proof.
  intros Ha Hb Hmod Hh. rewrite !build_bitmap_from_image_closed.
  do 3 eexists. split; [reflexivity |]. split; [reflexivity |].
  rewrite Hh. do 2 f_equal. f_equal. cbn [strip im_width im_height im_load].
  unfold raster. rewrite range_app, map_app, concat_app, map_map by assumption.
  f_equal; f_equal; apply map_ext; intros y; unfold raster_row;
    apply map_ext; intros i; apply byte_value_ext; intros k _; unfold dot.
  - now rewrite Z.add_0_r.
  - now rewrite threshold_at_rows by assumption.
Qed.

Lemma pack_strips_witness :
  exists top bottom bytes_per_row,
    PrintTweet.build_bitmap_from_image (strip (mkImage 20 11 (fun x y => 16 * y + x)) 0 8)
    = Ok (top, bytes_per_row, 8) /\
    PrintTweet.build_bitmap_from_image (strip (mkImage 20 11 (fun x y => 16 * y + x)) 8 3)
    = Ok (bottom, bytes_per_row, 3) /\
    PrintTweet.build_bitmap_from_image (mkImage 20 11 (fun x y => 16 * y + x))
    = Ok (top ++ bottom, bytes_per_row, 8 + 3).
Proof.
  apply (pack_strips (mkImage 20 11 (fun x y => 16 * y + x)) 8 3);
    [lia | lia | reflexivity | reflexivity].
Defined.

(** ** The framer: what a header can tell apart *)

Lemma header_bytes_inj_mod (a b c d : Z) :
  header_bytes a b = header_bytes c d ->
  a mod 65536 = c mod 65536 /\ b mod 65536 = d mod 65536.
Proof.
  unfold header_bytes. intros [= E1 E2 E3 E4].
  rewrite <- !low16_split. lia.
Qed.

Lemma land_255_mod_65536 (v : Z) : Z.land (v mod 65536) 255 = Z.land v 255.
Proof.
  rewrite !land_255_mod, (Z.mod_eq v 65536) by lia.
  replace (v - 65536 * (v / 65536)) with (v + (- (256 * (v / 65536))) * 256) by lia.
  apply Z.mod_add. lia.
Qed.

Lemma shiftr_land_mod_65536 (v : Z) :
  Z.land (Z.shiftr (v mod 65536) 8) 255 = Z.land (Z.shiftr v 8) 255.
Proof.
  rewrite !land_255_mod, !shiftr_8_div.
  rewrite (Z.mod_eq v 65536) by lia.
  replace (v - 65536 * (v / 65536)) with (v + (- (256 * (v / 65536))) * 256) by lia.
  rewrite Z.div_add by lia.
  replace (v / 256 + - (256 * (v / 65536)))
    with (v / 256 + (- (v / 65536)) * 256) by lia.
  apply Z.mod_add. lia.
Qed.

(** X9: two pairs of dimensions get the same header exactly when they
    agree modulo 65536; in particular the header tells apart any two pairs
    within 0..65535. *)
Theorem header_same_iff (a b c d : Z) :
  header a b = header c d <->
  a mod 65536 = c mod 65536 /\ b mod 65536 = d mod 65536.
Proof.
  rewrite !header_closed. split.
  - intros E. apply header_bytes_inj_mod. congruence.
  - intros [Ha Hb]. f_equal. unfold header_bytes.
    rewrite <- (land_255_mod_65536 a), <- (shiftr_land_mod_65536 a),
      <- (land_255_mod_65536 b), <- (shiftr_land_mod_65536 b), Ha, Hb,
      !land_255_mod_65536, !shiftr_land_mod_65536.
    reflexivity.
Qed.

(** X10: for an image at most 65535 rows high and at most 524280 columns
    wide the header declares the payload that follows it: its two
    dimensions read back as the bytes per row and the height, and their
    product is the length of the payload. *)
Theorem header_declares_payload (img : Image) :
  0 <= im_width img <= 524280 -> 0 <= im_height img <= 65535 ->
  exists data bytes_per_row hdr,
    PrintTweet.build_bitmap_from_image img
    = Ok (data, bytes_per_row, im_height img) /\
    header bytes_per_row (im_height img) = Ok hdr /\
    declared_dims hdr = Some (bytes_per_row, im_height img) /\
    len data = bytes_per_row * im_height img.
Proof.
  intros Hw Hh. rewrite build_bitmap_from_image_closed.
  do 3 eexists. split; [reflexivity |]. split; [apply header_closed |].
  pose proof (width_padded_multiple (im_width img)) as Hm.
  unfold width_padded_of in Hm.
  pose proof (Z.mod_pos_bound (8 - im_width img mod 8) 8 ltac:(lia)) as Hp.
  assert (Hb : 0 <= bytes_per_row_of (im_width img) <= 65535) by lia.
  split; [| apply raster_length; lia].
  unfold header_bytes, declared_dims.
  rewrite !low16_split, !Z.mod_small by lia. reflexivity.
Qed.

Lemma header_declares_payload_witness :
  exists data bytes_per_row hdr,
    PrintTweet.build_bitmap_from_image ramp_385x2 = Ok (data, bytes_per_row, 2) /\
    header bytes_per_row 2 = Ok hdr /\
    declared_dims hdr = Some (bytes_per_row, 2) /\
    len data = bytes_per_row * 2.
Proof. apply (header_declares_payload ramp_385x2); simpl; lia. Defined.

Lemma header_same_iff_witness : header 65584 200 = header 48 200.
Proof. apply (proj2 (header_same_iff 65584 200 48 200)). split; reflexivity. Defined.

(** ** The transmitter: failure *)

(** X11: whatever the device does, [send_to_printer] makes the calls of the
    transmission in order up to the first one that raises and none after
    it, prints nothing, and either returns [True] after all eight or
    raises the exception of [open] (before any call) or of that first
    failing call. *)
Theorem send_to_printer_first_error (env : Env) (dev : string)
  (data_bytes : list Z) (width_bytes height_pixels : Z) (w : World) :
  let calls := transmission (header_bytes width_bytes height_pixels) data_bytes in
  let w' := fst (send_to_printer env dev data_bytes width_bytes height_pixels w) in
  exists n,
    (n <= 8)%nat /\
    stdout w' = stdout w /\
    trace w' = trace w ++ firstn n calls /\
    match snd (send_to_printer env dev data_bytes width_bytes height_pixels w) with
    | Ok b => b = true /\ n = 8%nat
    | Raise e =>
        (open_error env dev = Some e /\ n = 0%nat) \/
        (open_error env dev = None /\
         exists ev, nth_error calls n = Some ev /\
                    call_error env (trace w ++ firstn n calls) ev = Some e)
    end.
Proof.
  cbv zeta.
  unfold send_to_printer, io_bind, lift, with_open, f_write, f_flush, call,
    time_sleep, io_ret.
  rewrite header_closed.
  destruct (open_error env dev) as [e0 |] eqn:Hopen.
  { exists 0%nat. simpl. rewrite app_nil_r. repeat split; auto. lia. }
  unfold transmission.
  repeat match goal with
  | |- context [call_error env ?tr ?ev] =>
      let H := fresh "Hcall" in
      destruct (call_error env tr ev) eqn:H; cbn [stdout trace fst snd]
  end.
  all: cbn [stdout trace fst snd].
  all: rewrite <- ?app_assoc in *; cbn [app] in *.
  - exists 0%nat. cbn [firstn]. rewrite app_nil_r.
    repeat split; [lia |]. right. split; [reflexivity |].
    eexists. split; [reflexivity | eassumption].
  - exists 1%nat. cbn [firstn].
    repeat split; [lia |]. right. split; [reflexivity |].
    eexists. split; [reflexivity | eassumption].
  - exists 3%nat. cbn [firstn].
    repeat split; [lia |]. right. split; [reflexivity |].
    eexists. split; [reflexivity | eassumption].
  - exists 4%nat. cbn [firstn].
    repeat split; [lia |]. right. split; [reflexivity |].
    eexists. split; [reflexivity | eassumption].
  - exists 6%nat. cbn [firstn].
    repeat split; [lia |]. right. split; [reflexivity |].
    eexists. split; [reflexivity | eassumption].
  - exists 7%nat. cbn [firstn].
    repeat split; [lia |]. right. split; [reflexivity |].
    eexists. split; [reflexivity | eassumption].
  - exists 8%nat. cbn [firstn]. repeat split. lia.
Qed.

(** ** The entry points: what reaches the user *)

Lemma send_to_printer_raise_source (env : Env) (dev : string)
  (data_bytes : list Z) (width_bytes height_pixels : Z) (w : World) (e : exn) :
  snd (send_to_printer env dev data_bytes width_bytes height_pixels w) = Raise e ->
  open_error env dev = Some e \/ exists tr ev, call_error env tr ev = Some e.
Proof.
  unfold send_to_printer, io_bind, lift, with_open, f_write, f_flush, call,
    time_sleep, io_ret.
  rewrite header_closed.
  destruct (open_error env dev) as [e0 |] eqn:Hopen.
  { intros [= <-]. now left. }
  repeat match goal with
  | |- context [call_error env ?tr ?ev] =>
      let H := fresh "Hcall" in
      destruct (call_error env tr ev) eqn:H; cbn [stdout trace fst snd]
  end;
  cbn [stdout trace fst snd]; intros E; try discriminate;
  injection E as <-; right; eauto.
Qed.

(** The [try] block shared by the three entry points, when the device
    raises only [OSError]. *)
Lemma try_send_outcome (env : Env) (dev : string) (data : list Z)
  (width_bytes height : Z) (ok_line fail_prefix : string) (w : World) :
  only_os_errors env dev ->
  let calls := transmission (header_bytes width_bytes height) data in
  exists w',
    try_except
      (send_to_printer env dev data width_bytes height ;;; print ok_line)
      (fun e => print (fail_prefix ++ exn_str e)) w
    = (w', Ok tt) /\
    ((stdout w' = stdout w ++ [ok_line] /\ trace w' = trace w ++ calls) \/
     (exists msg n, (n < 8)%nat /\
        stdout w' = stdout w ++ [(fail_prefix ++ msg)%string] /\
        trace w' = trace w ++ firstn n calls)).
Proof.
  intros [Hopen Hcall]. cbv zeta. unfold try_except, io_bind.
  pose proof (send_to_printer_cases env dev data width_bytes height w) as H.
  pose proof (send_to_printer_raise_source env dev data width_bytes height w) as Hsrc.
  cbv zeta in H.
  destruct (send_to_printer env dev data width_bytes height w) as [w1 [b | e]];
    destruct H as [Hs H].
  - destruct H as [_ Htr]. eexists. split; [reflexivity |]. left.
    cbn [print stdout trace]. now rewrite Hs.
  - destruct H as (n & Hn & Htr).
    assert (Hos : exists msg, e = OSError msg).
    { destruct (Hsrc e eq_refl) as [Ho | (tr & ev & Hc)]; eauto. }
    destruct Hos as [msg ->].
    eexists. split; [reflexivity |]. right. exists msg, n.
    cbn [print stdout trace exn_str]. now rewrite Hs.
Qed.

(** X12: once [print_image.py] has its bitmap and finds the device node,
    no [OSError] of the device escapes [main]: it returns normally, having
    printed either "Sent OK." after the whole transmission or "Write
    failed: " with the message after the calls that preceded the failing
    one. *)
Theorem print_image_main_reports (lib : Lib) (env : Env)
  (prog image_path : string) (rest : list string) (img : AnyImage lib)
  (data : list Z) (width_bytes height : Z) :
  path_exists env image_path = true ->
  path_exists env DEV = true ->
  Image_open lib image_path = Ok img ->
  PrintImage.build_bitmap_from_image lib img = Ok (data, width_bytes, height) ->
  only_os_errors env DEV ->
  let sizes := ("Width px: " ++ str_of_int WIDTH ++ " Bytes/row: "
                ++ str_of_int width_bytes ++ " Height px: "
                ++ str_of_int height)%string in
  let calls := transmission (header_bytes width_bytes height) data in
  exists w',
    PrintImage.main lib env (prog :: image_path :: rest) world0 = (w', Ok tt) /\
    ((stdout w' = [sizes; "Sent OK."%string] /\ trace w' = calls) \/
     (exists msg n, (n < 8)%nat /\
        stdout w' = [sizes; ("Write failed: " ++ msg)%string] /\
        trace w' = firstn n calls)).
Proof.
  intros Himg Hdev Hopen Hbuild Hos. cbv zeta.
  unfold PrintImage.main, io_bind at 1 2 3, lift.
  rewrite Himg, Hopen, Hbuild. cbn [negb].
  unfold print at 1. cbn [stdout trace world0 app].
  rewrite Hdev. cbn [negb].
  match goal with
  | |- context [try_except _ _ ?w0] =>
      destruct (try_send_outcome env DEV data width_bytes height
                  "Sent OK." "Write failed: " w0 Hos) as (w' & -> & Hout)
  end.
  exists w'. split; [reflexivity |]. exact Hout.
Qed.

Lemma env_unplugged_os_errors : only_os_errors env_unplugged DEV.
Proof.
  split.
  - intros e [=].
  - intros tr ev e. cbn [call_error env_unplugged].
    destruct (3 <=? len tr); intros [= <-]. eauto.
Qed.

Lemma build_plain_photo :
  PrintImage.build_bitmap_from_image lib_plain (mkImage 40 40 (fun _ _ => 128))
  = Ok (raster (fun x y => 128) 384 (bytes_per_row_of 384) 384,
        bytes_per_row_of 384, 384).
Proof.
  unfold PrintImage.build_bitmap_from_image. cbn [lib_plain convert bind].
  cbn [im_width im_height]. unfold int_scale_checked.
  cbn [lib_plain int_scale resize Z.eqb bind im_width im_height im_load].
  change (40 * WIDTH / 40) with 384. change WIDTH with 384.
  rewrite pack_bitmap_closed. reflexivity.
Qed.

Lemma print_image_main_reports_witness :
  exists w',
    PrintImage.main lib_plain env_unplugged ["print_image.py"; "photo.png"]%string world0
    = (w', Ok tt).
Proof.
  destruct (print_image_main_reports lib_plain env_unplugged
              "print_image.py" "photo.png" [] (mkImage 40 40 (fun _ _ => 128))
              _ _ _ eq_refl eq_refl eq_refl build_plain_photo
              env_unplugged_os_errors) as (w' & Hmain & Hout).
  exists w'. exact Hmain.
Defined.

(** X13: [print_image.py] looks for the device node only after it has
    built the bitmap: with the node absent it prints the sizes, reports
    the missing device, makes no call on the device and returns
    normally. *)
Theorem print_image_main_no_device (lib : Lib) (env : Env)
  (prog image_path : string) (rest : list string) (img : AnyImage lib)
  (data : list Z) (width_bytes height : Z) :
  path_exists env image_path = true ->
  path_exists env DEV = false ->
  Image_open lib image_path = Ok img ->
  PrintImage.build_bitmap_from_image lib img = Ok (data, width_bytes, height) ->
  PrintImage.main lib env (prog :: image_path :: rest) world0
  = (mkWorld
       [("Width px: " ++ str_of_int WIDTH ++ " Bytes/row: "
         ++ str_of_int width_bytes ++ " Height px: " ++ str_of_int height)%string;
        "Device /dev/usb/lp0 not found."%string]
       [],
     Ok tt).
Proof.
  intros Himg Hdev Hopen Hbuild.
  unfold PrintImage.main, io_bind, lift.
  rewrite Himg, Hopen, Hbuild. cbn [negb]. unfold print at 1.
  rewrite Hdev. reflexivity.
Qed.

Lemma print_image_main_no_device_witness :
  PrintImage.main lib_plain env_photo_only ["print_image.py"; "photo.png"]%string world0
  = (mkWorld
       ["Width px: 384 Bytes/row: 48 Height px: 384";
        "Device /dev/usb/lp0 not found."]%string
       [],
     Ok tt).
Proof.
  exact (print_image_main_no_device lib_plain env_photo_only
           "print_image.py" "photo.png" [] (mkImage 40 40 (fun _ _ => 128))
           _ _ _ eq_refl eq_refl eq_refl build_plain_photo).
Defined.

(** X14: with fewer than four arguments [print_tweet.py] prints its usage
    line and exits with status 1; it opens no image and makes no call on
    the device. *)
Theorem print_tweet_main_usage (lib : Lib) (env : Env) (argv : list string)
  (w : World) :
  (List.length argv < 5)%nat ->
  PrintTweet.main lib env argv w
  = (mkWorld
       (stdout w ++
        ["Usage: tweetprint.py <profile_img> <username> <tweet_text> <date>"%string])
       (trace w),
     Raise (SystemExit 1)).
Proof.
  intros Hlen.
  destruct argv as [| a0 [| a1 [| a2 [| a3 [| a4 rest]]]]];
    try reflexivity.
  simpl in Hlen. lia.
Qed.

Lemma print_tweet_main_usage_witness :
  PrintTweet.main lib_plain env_ok ["print_tweet.py"; "face.png"; "rocq"]%string world0
  = (mkWorld
       ["Usage: tweetprint.py <profile_img> <username> <tweet_text> <date>"%string]
       [],
     Raise (SystemExit 1)).
Proof.
  apply (print_tweet_main_usage lib_plain env_ok
           ["print_tweet.py"; "face.png"; "rocq"]%string world0).
  simpl. lia.
Defined.

(** X15: when the profile image cannot be opened the exception of
    [Image.open] leaves [print_tweet.py] uncaught: nothing is printed and
    no call is made on the device. *)
Theorem print_tweet_main_open_error (lib : Lib) (env : Env)
  (prog profile_path username text date : string) (rest : list string)
  (e : exn) (w : World) :
  Image_open lib profile_path = Raise e ->
  PrintTweet.main lib env (prog :: profile_path :: username :: text :: date :: rest) w
  = (w, Raise e).
Proof.
  intros Hopen. unfold PrintTweet.main, io_bind, lift, PrintTweet.render_tweet.
  rewrite Hopen. reflexivity.
Qed.

Lemma print_tweet_main_open_error_witness :
  PrintTweet.main lib_no_profile env_ok
    ["print_tweet.py"; "face.png"; "rocq"; "hello world"; "4 Nov"]%string world0
  = (world0,
     Raise (OSError "[Errno 2] No such file or directory: 'face.png'")).
Proof.
  apply (print_tweet_main_open_error lib_no_profile env_ok "print_tweet.py"
           "face.png" "rocq" "hello world" "4 Nov" []).
  reflexivity.
Defined.

(** ** The text wrapper *)

Lemma wrap_text_pixels_steps (lib : Lib) (text : string) (font : Font lib)
  (max_width : Z) :
  PrintTweet.wrap_text_pixels lib text font max_width
  = wrap_finish (fold_left (wrap_step lib font max_width) (str_split lib text)
                   ([], ""%string)).
Proof. reflexivity. Qed.

Lemma non_empty_true (s : string) : PrintTweet.non_empty s = true <-> s <> ""%string.
Proof.
  unfold PrintTweet.non_empty. destruct (String.eqb_spec s ""); simpl; split;
    congruence.
Qed.

Lemma non_empty_false (s : string) : PrintTweet.non_empty s = false <-> s = ""%string.
Proof.
  unfold PrintTweet.non_empty. destruct (String.eqb_spec s ""); simpl; split;
    congruence.
Qed.

Lemma wrap_step_inv (lib : Lib) (font : Font lib) (max_width : Z)
  (words : list string) (st : list string * string) (word : string) :
  In word words -> wrap_inv lib font max_width words st ->
  wrap_inv lib font max_width words (wrap_step lib font max_width st word).
Proof.
  intros Hin [Hlines Hcur]. destruct st as [lines cur]. simpl in *.
  unfold wrap_step, wrap_inv.
  destruct (Z.leb_spec
              (line_width lib font
                 (cur ++ (if PrintTweet.non_empty cur then " " else "") ++ word))
              max_width) as [Hfit | Hwide].
  - split; [exact Hlines |]. simpl.
    match goal with |- ?s = _ \/ _ => destruct (String.eqb_spec s "") as [E | E] end;
      [now left | right; split; auto].
  - split; simpl.
    + destruct (PrintTweet.non_empty cur) eqn:Hne; [| exact Hlines].
      apply Forall_app. split; [exact Hlines |]. constructor; [| constructor].
      destruct Hcur as [E | Hg]; [| exact Hg].
      apply non_empty_true in Hne. contradiction.
    + destruct (String.eqb_spec word "") as [E | E]; [now left |].
      right. split; auto.
Qed.

Lemma wrap_fold_inv (lib : Lib) (font : Font lib) (max_width : Z)
  (words ws : list string) :
  incl ws words ->
  forall st, wrap_inv lib font max_width words st ->
             wrap_inv lib font max_width words
               (fold_left (wrap_step lib font max_width) ws st).
Proof.
  induction ws as [| word ws IH]; intros Hincl st Hst; simpl; [exact Hst |].
  apply IH.
  - intros x Hx. apply Hincl. now right.
  - apply wrap_step_inv; [apply Hincl; now left | exact Hst].
Qed.

Lemma wrap_finish_good (lib : Lib) (font : Font lib) (max_width : Z)
  (words : list string) (st : list string * string) :
  wrap_inv lib font max_width words st ->
  Forall (wrap_good lib font max_width words) (wrap_finish st).
Proof.
  intros [Hlines Hcur]. destruct st as [lines cur]. simpl in *.
  destruct (PrintTweet.non_empty cur) eqn:Hne; [| exact Hlines].
  apply Forall_app. split; [exact Hlines |]. constructor; [| constructor].
  destruct Hcur as [E | Hg]; [| exact Hg].
  apply non_empty_true in Hne. contradiction.
Qed.

(** X16: no line returned by [wrap_text_pixels] is empty, and every line
    either measures at most [max_width] or is a single word of the text (a
    word too wide to fit is left on a line of its own, unbroken). *)
Theorem wrap_text_pixels_lines (lib : Lib) (text : string) (font : Font lib)
  (max_width : Z) (line : string) :
  In line (PrintTweet.wrap_text_pixels lib text font max_width) ->
  line <> ""%string /\
  (In line (str_split lib text) \/ line_width lib font line <= max_width).
Proof.
  intros Hin. rewrite wrap_text_pixels_steps in Hin.
  pose proof (wrap_finish_good lib font max_width (str_split lib text) _
                (wrap_fold_inv lib font max_width (str_split lib text)
                   (str_split lib text) (incl_refl _) ([], ""%string)
                   (conj (Forall_nil _) (or_introl eq_refl)))) as Hgood.
  rewrite Forall_forall in Hgood. exact (Hgood line Hin).
Qed.

Lemma wrap_text_pixels_lines_witness :
  "a-very-long-word-that-cannot-fit"%string <> ""%string /\
  (In "a-very-long-word-that-cannot-fit"%string
      (str_split lib_words "tiny a-very-long-word-that-cannot-fit end") \/
   line_width lib_words tt "a-very-long-word-that-cannot-fit" <= 100).
Proof.
  apply (wrap_text_pixels_lines lib_words
           "tiny a-very-long-word-that-cannot-fit end" tt 100).
  vm_compute. right. left. reflexivity.
Defined.

Lemma string_app_assoc (a b c : string) : ((a ++ b) ++ c = a ++ (b ++ c))%string.
Proof. induction a as [| ch a IH]; simpl; [reflexivity | now rewrite IH]. Qed.

Lemma string_app_empty (a b : string) : (a ++ b)%string = ""%string -> a = ""%string.
Proof. destruct a; simpl; [reflexivity | discriminate]. Qed.

Lemma join_cons2 (x y : string) (l : list string) :
  join (x :: y :: l) = (x ++ " " ++ join (y :: l))%string.
Proof. reflexivity. Qed.

Lemma join_empty (g : list string) :
  Forall (fun w => w <> ""%string) g -> join g = ""%string -> g = [].
Proof.
  intros Hg Hj. destruct g as [| x [| y l]]; [reflexivity | |].
  - inversion Hg; subst. simpl in Hj. contradiction.
  - inversion Hg; subst. rewrite join_cons2 in Hj.
    apply string_app_empty in Hj. contradiction.
Qed.

Lemma join_snoc_cons (x : string) (g : list string) (w : string) :
  (join (x :: g) ++ " " ++ w)%string = join (x :: g ++ [w]).
Proof.
  revert x. induction g as [| y g IH]; intros x.
  - reflexivity.
  - cbn [app]. rewrite !join_cons2, string_app_assoc.
    change ((" " ++ join (y :: g)) ++ " " ++ w)%string
      with (" " ++ (join (y :: g) ++ " " ++ w))%string.
    now rewrite IH.
Qed.

Lemma join_snoc (g : list string) (w : string) :
  Forall (fun w => w <> ""%string) g ->
  (join g ++ (if PrintTweet.non_empty (join g) then " " else "") ++ w)%string
  = join (g ++ [w]).
Proof.
  intros Hg. destruct g as [| x g].
  - reflexivity.
  - assert (Hne : PrintTweet.non_empty (join (x :: g)) = true).
    { apply non_empty_true. intros E. apply join_empty in E; [discriminate | exact Hg]. }
    rewrite Hne. apply join_snoc_cons.
Qed.

Lemma wrap_fold_groups (lib : Lib) (font : Font lib) (max_width : Z)
  (ws : list string) :
  Forall (fun w => w <> ""%string) ws ->
  forall (groups : list (list string)) (g : list string),
    Forall (fun g => g <> []) groups ->
    Forall (fun w => w <> ""%string) g ->
    exists groups' g',
      fold_left (wrap_step lib font max_width) ws (map join groups, join g)
      = (map join groups', join g') /\
      concat groups' ++ g' = concat groups ++ g ++ ws /\
      Forall (fun g => g <> []) groups' /\
      Forall (fun w => w <> ""%string) g'.
Proof.
  induction ws as [| w ws IH]; intros Hws groups g Hgroups Hg.
  - exists groups, g. rewrite app_nil_r. auto.
  - inversion Hws as [| ? ? Hw Hws']; subst.
    cbn [fold_left]. unfold wrap_step at 2. rewrite join_snoc by exact Hg.
    destruct (line_width lib font (join (g ++ [w])) <=? max_width).
    + destruct (IH Hws' groups (g ++ [w]) Hgroups) as (groups' & g' & Hf & Hc & H1 & H2).
      { apply Forall_app. auto. }
      exists groups', g'. rewrite Hf, Hc, <- app_assoc. auto.
    + destruct (PrintTweet.non_empty (join g)) eqn:Hne.
      * assert (Hgne : g <> []).
        { intros ->. discriminate. }
        destruct (IH Hws' (groups ++ [g]) [w]) as (groups' & g' & Hf & Hc & H1 & H2).
        { apply Forall_app. auto. }
        { auto. }
        exists groups', g'. rewrite map_app in Hf. cbn [map] in Hf.
        change (join [w]) with w in Hf. rewrite Hf, Hc, concat_app.
        cbn [concat]. rewrite app_nil_r, <- !app_assoc. auto.
      * apply non_empty_false, join_empty in Hne; [| exact Hg]. subst g.
        destruct (IH Hws' groups [w] Hgroups) as (groups' & g' & Hf & Hc & H1 & H2).
        { auto. }
        exists groups', g'. change (join [w]) with w in Hf.
        rewrite Hf, Hc. auto.
Qed.

(** X17: when the words of the text are non-empty (as those of
    [str.split()] are) the lines are the words in their order, cut into
    non-empty groups and each group joined by single spaces: no word is
    lost, repeated, reordered or broken. *)
Theorem wrap_text_pixels_groups (lib : Lib) (text : string) (font : Font lib)
  (max_width : Z) :
  Forall (fun w => w <> ""%string) (str_split lib text) ->
  exists groups,
    PrintTweet.wrap_text_pixels lib text font max_width = map join groups /\
    concat groups = str_split lib text /\
    Forall (fun g => g <> []) groups.
Proof.
  intros Hwords. rewrite wrap_text_pixels_steps.
  destruct (wrap_fold_groups lib font max_width (str_split lib text) Hwords [] [])
    as (groups & g & Hf & Hc & Hgroups & Hg); auto.
  cbn [map concat app] in Hf, Hc. change (join []) with ""%string in Hf.
  rewrite Hf. unfold wrap_finish.
  destruct (PrintTweet.non_empty (join g)) eqn:Hne.
  - exists (groups ++ [g]). rewrite map_app, concat_app. cbn [map concat].
    rewrite app_nil_r. repeat split; auto.
    apply Forall_app. split; [exact Hgroups |]. constructor; [| constructor].
    intros ->. discriminate.
  - apply non_empty_false, join_empty in Hne; [| exact Hg]. subst g.
    exists groups. rewrite app_nil_r in Hc. auto.
Qed.

Lemma wrap_text_pixels_groups_witness :
  exists groups,
    PrintTweet.wrap_text_pixels lib_words "the quick brown fox jumps" tt 100
    = map join groups /\
    concat groups = ["the"; "quick"; "brown"; "fox"; "jumps"]%string /\
    Forall (fun g => g <> []) groups.
Proof.
  apply (wrap_text_pixels_groups lib_words "the quick brown fox jumps" tt 100).
  vm_compute. repeat constructor; discriminate.
Defined.

(** ** The tweet card and the resized photo *)

Lemma Image_new_height (w h color : Z) (img : Image) :
  Image_new w h color = Ok img -> im_height img = h /\ 0 <= h.
Proof.
  unfold Image_new.
  destruct (Z.ltb_spec w 0), (Z.ltb_spec h 0); simpl; try discriminate.
  intros [= <-]. simpl. lia.
Qed.

Lemma draw_lines_height (lib : Lib) (font : Font lib) (lbs : list (string * BBox)) :
  forall (img : Image) (y_offset : Z),
    im_height
      (fst (fold_left
              (fun (st : Image * Z) (lb : string * BBox) =>
                 let '(img, y_offset) := st in
                 let '(line, bbox) := lb in
                 (Draw_text lib img (0, y_offset) line font 0,
                  y_offset + (PrintTweet.bbox_y1 bbox - PrintTweet.bbox_y0 bbox) + 4))
              lbs (img, y_offset)))
    = im_height img.
Proof.
  induction lbs as [| [line bbox] lbs IH]; intros img y_offset; simpl.
  - reflexivity.
  - now rewrite IH.
Qed.

Lemma render_tweet_height (lib : Lib) (profile_path username text date : string)
  (img : Image) :
  PrintTweet.render_tweet lib profile_path username text date = Ok img ->
  0 <= im_height img.
Proof.
  unfold PrintTweet.render_tweet.
  destruct (Image_open lib profile_path) as [pimg0 |]; [| discriminate].
  cbn [bind].
  destruct (convert lib pimg0) as [pimg1 |]; [| discriminate]. cbn [bind].
  destruct (int_scale_checked lib 40 (im_width pimg1) (im_height pimg1))
    as [target_w |]; [| discriminate]. cbn [bind].
  destruct (resize lib pimg1 (target_w, 40) BICUBIC) as [pimg |]; [| discriminate].
  cbn [bind].
  destruct (PrintTweet.load_fonts lib) as [[font_user font_text] font_date].
  match goal with
  | |- context [Image_new WIDTH ?h 255] =>
      destruct (Image_new WIDTH h 255) as [canvas |] eqn:Hnew; [| discriminate]
  end.
  cbn [bind].
  match goal with
  | |- context [fold_left ?step ?lbs (?img0, ?y0)] =>
      pose proof (draw_lines_height lib font_text lbs img0 y0) as Hfold;
      destruct (fold_left step lbs (img0, y0)) as [img1 y1]
  end.
  intros [= <-]. cbn [fst] in Hfold. cbn [Draw_text paste im_height] in *.
  rewrite Hfold. apply Image_new_height in Hnew. lia.
Qed.

Lemma raster_length_any (pixels : Z -> Z -> Z) (width bytes_per_row height : Z) :
  0 <= bytes_per_row ->
  len (raster pixels width bytes_per_row height) = bytes_per_row * Z.max 0 height.
Proof.
  intros Hb. unfold len, raster.
  rewrite (length_concat_uniform _ _ (raster_rows_uniform _ _ _ _)).
  rewrite length_map, range_length. lia.
Qed.

(** X18: the payload of every tweet card has exactly 48 bytes for each of
    its rows, and the card has no negative height. *)
Theorem tweet_payload_size (lib : Lib) (profile_path username text date : string)
  (img : Image) :
  PrintTweet.render_tweet lib profile_path username text date = Ok img ->
  0 <= im_height img /\
  exists data,
    PrintTweet.build_bitmap_from_image img = Ok (data, 48, im_height img) /\
    len data = 48 * im_height img.
Proof.
  intros Hrender.
  pose proof (render_tweet_height _ _ _ _ _ _ Hrender) as Hh.
  apply render_tweet_width in Hrender. change WIDTH with 384 in Hrender.
  split; [exact Hh |].
  rewrite build_bitmap_from_image_closed, Hrender.
  eexists. split; [reflexivity |].
  change (bytes_per_row_of 384) with 48. apply raster_length; lia.
Qed.

Lemma tweet_payload_size_witness :
  exists img,
    PrintTweet.render_tweet lib_plain "face.png" "rocq" "hello world" "4 Nov"
    = Ok img /\
    0 <= im_height img /\
    exists data,
      PrintTweet.build_bitmap_from_image img = Ok (data, 48, im_height img) /\
      len data = 48 * im_height img.
Proof.
  eexists. split.
  - reflexivity.
  - apply (tweet_payload_size lib_plain "face.png" "rocq" "hello world" "4 Nov").
    reflexivity.
Defined.

(** X19: the three fonts are loaded all or none: when any one of the
    three [truetype] calls raises, all three fonts are the default font,
    also those whose file could be loaded. *)
Theorem load_fonts_fallback (lib : Lib) :
  (exists e, truetype lib "DejaVuSans-Bold.ttf" 24 = Raise e) \/
  (exists e, truetype lib "DejaVuSans.ttf" 22 = Raise e) \/
  (exists e, truetype lib "DejaVuSans.ttf" 18 = Raise e) ->
  PrintTweet.load_fonts lib = (load_default lib, load_default lib, load_default lib).
Proof.
  unfold PrintTweet.load_fonts.
  intros [[e He] | [[e He] | [e He]]]; rewrite He; cbn [bind];
    repeat match goal with
    | |- context [truetype lib ?n ?s] => destruct (truetype lib n s); cbn [bind]
    end; reflexivity.
Qed.

Lemma load_fonts_fallback_witness :
  truetype lib_no_bold "DejaVuSans.ttf" 22 = Ok true /\
  PrintTweet.load_fonts lib_no_bold = (false, false, false).
Proof.
  split; [reflexivity |].
  apply (load_fonts_fallback lib_no_bold). left. eexists. reflexivity.
Defined.

(** X20: when [resize] returns the size it is asked for, [print_image.py]
    packs every image, whatever its own size, at 48 bytes per row; the
    height is the scaled height and the payload has 48 bytes for each
    row. *)
Theorem print_image_bitmap_size (lib : Lib) (img : AnyImage lib)
  (data : list Z) (bytes_per_row height : Z) :
  resize_honours_size lib ->
  PrintImage.build_bitmap_from_image lib img = Ok (data, bytes_per_row, height) ->
  bytes_per_row = 48 /\
  len data = 48 * Z.max 0 height /\
  exists gray, convert lib img = Ok gray /\ im_width gray <> 0 /\
               height = int_scale lib (im_height gray) 384 (im_width gray).
Proof.
  intros Hresize. unfold PrintImage.build_bitmap_from_image.
  destruct (convert lib img) as [gray |]; [| discriminate]. cbn [bind].
  unfold int_scale_checked.
  destruct (Z.eqb_spec (im_width gray) 0) as [E | E]; [discriminate |].
  cbn [bind].
  destruct (resize lib gray (WIDTH, int_scale lib (im_height gray) WIDTH (im_width gray))
              LANCZOS) as [resized |] eqn:Hr; [| discriminate].
  cbn [bind]. apply Hresize in Hr. destruct Hr as [Hw Hh].
  rewrite pack_bitmap_closed, Hw, Hh. change WIDTH with 384.
  change (bytes_per_row_of 384) with 48.
  intros [= <- <- <-].
  split; [reflexivity |]. split; [apply raster_length_any; lia |].
  exists gray. auto.
Qed.

Lemma lib_plain_resize : resize_honours_size lib_plain.
Proof. intros img w h r img' [= <-]. split; reflexivity. Qed.

Lemma print_image_bitmap_size_witness :
  exists data height,
    PrintImage.build_bitmap_from_image lib_plain (mkImage 40 40 (fun _ _ => 128))
    = Ok (data, 48, height) /\
    len data = 48 * Z.max 0 height.
Proof.
  destruct (print_image_bitmap_size lib_plain (mkImage 40 40 (fun _ _ => 128))
              _ _ _ lib_plain_resize build_plain_photo) as (H1 & H2 & _).
  do 2 eexists. split; [| exact H2]. exact build_plain_photo.
Defined.

(** ** The gradient script *)

Lemma pixel_black_closed (ramp : Z -> Z -> Z) (x y width : Z) :
  width <> 1 ->
  PrintGradient.pixel_black ramp x y width
  = Ok (if ramp x (width - 1)
           >? PrintGradient.int_half_scaled
                (nth (Z.to_nat (x mod 8)) (nth (Z.to_nat (y mod 8)) BAYER8 []) 0)
        then 1 else 0).
Proof.
  intros Hw. unfold PrintGradient.pixel_black.
  destruct (Z.eqb_spec (width - 1) 0); [lia |]. cbn [bind].
  destruct (mod8_cases y) as [Hy | [Hy | [Hy | [Hy | [Hy | [Hy | [Hy | Hy]]]]]]];
    rewrite Hy;
    destruct (mod8_cases x) as [Hx | [Hx | [Hx | [Hx | [Hx | [Hx | [Hx | Hx]]]]]]];
    rewrite Hx; reflexivity.
Qed.

Lemma half_threshold_bounds (x y : Z) :
  1 <= PrintGradient.int_half_scaled
         (nth (Z.to_nat (x mod 8)) (nth (Z.to_nat (y mod 8)) BAYER8 []) 0)
    <= 253.
Proof.
  destruct (mod8_cases y) as [Hy | [Hy | [Hy | [Hy | [Hy | [Hy | [Hy | Hy]]]]]]];
    rewrite Hy;
    destruct (mod8_cases x) as [Hx | [Hx | [Hx | [Hx | [Hx | [Hx | [Hx | Hx]]]]]]];
    rewrite Hx;
    match goal with
    | |- context [PrintGradient.int_half_scaled ?t] =>
        let v := eval vm_compute in (PrintGradient.int_half_scaled t) in
        change (PrintGradient.int_half_scaled t) with v
    end; lia.
Qed.

(** X21: the gradient's decision is clean at both ends of the ramp: where
    the ramp value is 1 or less the dot is white and where it is 254 or
    more the dot is black, at every position. *)
Theorem pixel_black_extremes (ramp : Z -> Z -> Z) (x y width : Z) :
  width <> 1 ->
  (ramp x (width - 1) <= 1 -> PrintGradient.pixel_black ramp x y width = Ok 0) /\
  (254 <= ramp x (width - 1) -> PrintGradient.pixel_black ramp x y width = Ok 1).
Proof.
  intros Hw. rewrite pixel_black_closed by assumption.
  pose proof (half_threshold_bounds x y) as Hb.
  split; intros Hr;
    match goal with
    | |- Ok (if ?a >? ?b then _ else _) = _ => destruct (Z.gtb_spec a b)
    end; try reflexivity; lia.
Qed.

Lemma pixel_black_extremes_witness :
  PrintGradient.pixel_black ramp_exact 0 0 384 = Ok 0 /\
  PrintGradient.pixel_black ramp_exact 383 0 384 = Ok 1.
Proof.
  split.
  - apply (proj1 (pixel_black_extremes ramp_exact 0 0 384 ltac:(lia))).
    vm_compute. discriminate.
  - apply (proj2 (pixel_black_extremes ramp_exact 383 0 384 ltac:(lia))).
    vm_compute. discriminate.
Defined.

Lemma range_first (n : Z) :
  1 <= n -> range n = 0 :: map (fun y => y + 1) (range (n - 1)).
Proof.
  intros Hn. replace n with (1 + (n - 1)) at 1 by lia.
  rewrite range_app by lia. reflexivity.
Qed.

(** X22: [build_bitmap] cannot draw a gradient one pixel wide: for width 1
    and at least one row the ramp divides by [width - 1 = 0] and the call
    raises [ZeroDivisionError]. *)
Theorem build_bitmap_width_1 (ramp : Z -> Z -> Z) (height : Z) :
  1 <= height ->
  PrintGradient.build_bitmap ramp 1 height = Raise ZeroDivisionError.
Proof.
  intros Hh. unfold PrintGradient.build_bitmap.
  rewrite (range_first height) by assumption.
  rewrite for_each_cons.
  change (range (1 + (8 - 1 mod 8) mod 8)) with [0; 1; 2; 3; 4; 5; 6; 7].
  rewrite for_each_cons. reflexivity.
Qed.

Lemma build_bitmap_width_1_witness :
  PrintGradient.build_bitmap ramp_exact 1 200 = Raise ZeroDivisionError.
Proof. apply (build_bitmap_width_1 ramp_exact 200). lia. Defined.

Lemma build_bitmap_closed (ramp : Z -> Z -> Z) (width height : Z) :
  width <> 1 ->
  PrintGradient.build_bitmap ramp width height
  = Ok (gradient_raster ramp width (bytes_per_row_of width) height,
        bytes_per_row_of width).
Proof.
  intros Hw. unfold PrintGradient.build_bitmap.
  fold (width_padded_of width). fold (bytes_per_row_of width).
  rewrite (for_each_extend _ _
             (fun y => map (byte_value (gradient_dot ramp width y))
                           (range (bytes_per_row_of width)))).
  - reflexivity.
  - intros acc y _.
    rewrite (for_each_append _ _ (gradient_dot ramp width y)).
    + cbn [bind app]. apply pack_row_closed. rewrite width_padded_multiple. lia.
    + intros row x _. unfold gradient_dot.
      destruct (x <? width); [rewrite pixel_black_closed by assumption |];
        reflexivity.
Qed.

Lemma gradient_rows_uniform (ramp : Z -> Z -> Z) (width bytes_per_row height : Z) :
  forall r,
    In r (map (fun y => map (byte_value (gradient_dot ramp width y))
                            (range bytes_per_row))
              (range height)) ->
    List.length r = Z.to_nat bytes_per_row.
Proof.
  intros r Hr. apply in_map_iff in Hr. destruct Hr as (y & <- & _).
  now rewrite length_map, range_length.
Qed.

Lemma gradient_dot_is_bit (ramp : Z -> Z -> Z) (width y x : Z) :
  gradient_dot ramp width y x = 0 \/ gradient_dot ramp width y x = 1.
Proof.
  unfold gradient_dot. destruct (x <? width); [| now left].
  match goal with |- context [if ?c then 1 else 0] => destruct c end;
    [now right | now left].
Qed.

Lemma read_bit_gradient (ramp : Z -> Z -> Z) (width bytes_per_row height x y : Z) :
  0 <= y < height -> 0 <= x < bytes_per_row * 8 ->
  read_bit (gradient_raster ramp width bytes_per_row height) bytes_per_row x y
  = Ok (gradient_dot ramp width y x).
Proof.
  intros Hy Hx. unfold read_bit.
  pose proof (Z.div_mod x 8) as Hdm. pose proof (Z.mod_pos_bound x 8) as Hm.
  assert (Hq : 0 <= x / 8 < bytes_per_row) by lia.
  assert (Hidx : py_index (gradient_raster ramp width bytes_per_row height)
                   (y * bytes_per_row + x / 8)
                 = Ok (byte_value (gradient_dot ramp width y) (x / 8))).
  { apply py_index_nth_error; [nia |].
    replace (Z.to_nat (y * bytes_per_row + x / 8))
      with (Z.to_nat y * Z.to_nat bytes_per_row + Z.to_nat (x / 8))%nat by nia.
    unfold gradient_raster.
    rewrite (nth_error_concat_uniform _ _ _ _ (gradient_rows_uniform _ _ _ _))
      by lia.
    rewrite nth_error_map, range_nth_error by lia. simpl.
    rewrite nth_error_map, range_nth_error by lia. simpl.
    now rewrite !Z2Nat.id by lia. }
  rewrite Hidx. cbn [bind].
  rewrite byte_value_bit; [| apply gradient_dot_is_bit | lia].
  do 2 f_equal. lia.
Qed.

(** X23: for every width but 1, [build_bitmap] returns [ceil(width / 8)]
    bytes per row and that many bytes for each row, and the payload reads
    back, most significant bit first, as the decision of [pixel_black] in
    the columns of the image and as 0 in the padding columns. *)
Theorem build_bitmap_read_back (ramp : Z -> Z -> Z) (width height x y : Z) :
  0 <= width -> width <> 1 -> 0 <= y < height -> 0 <= x < 8 * ((width + 7) / 8) ->
  exists data,
    PrintGradient.build_bitmap ramp width height = Ok (data, (width + 7) / 8) /\
    len data = (width + 7) / 8 * height /\
    read_bit data ((width + 7) / 8) x y
    = (if x <? width then PrintGradient.pixel_black ramp x y width else Ok 0).
Proof.
  intros Hw0 Hw Hy Hx. rewrite build_bitmap_closed by assumption.
  pose proof (width_padded_multiple width) as Hm. unfold width_padded_of in Hm.
  pose proof (Z.mod_pos_bound (8 - width mod 8) 8 ltac:(lia)) as Hp.
  assert (Hb : bytes_per_row_of width = (width + 7) / 8).
  { apply Z.div_unique with (r := width + 7 - 8 * bytes_per_row_of width); lia. }
  rewrite <- Hb in *. eexists. split; [reflexivity |]. split.
  - unfold len, gradient_raster.
    rewrite (length_concat_uniform _ _ (gradient_rows_uniform _ _ _ _)).
    rewrite length_map, range_length. lia.
  - rewrite read_bit_gradient by lia. unfold gradient_dot.
    destruct (x <? width); [| reflexivity].
    now rewrite pixel_black_closed by assumption.
Qed.

Lemma build_bitmap_read_back_witness :
  exists data,
    PrintGradient.build_bitmap ramp_exact 12 3 = Ok (data, (12 + 7) / 8) /\
    len data = (12 + 7) / 8 * 3 /\
    read_bit data ((12 + 7) / 8) 11 2
    = (if 11 <? 12 then PrintGradient.pixel_black ramp_exact 11 2 12 else Ok 0).
Proof.
  apply (build_bitmap_read_back ramp_exact 12 3 11 2); try lia.
  vm_compute. split; [discriminate | reflexivity].
Defined.

Lemma print_gradient_main_device_absent (ramp : Z -> Z -> Z) (env : Env) :
  path_exists env DEV = false ->
  PrintGradient.main ramp env world0 = (mkWorld [device_not_found] [], Ok tt).
Proof. intros Hdev. unfold PrintGradient.main. rewrite Hdev. reflexivity. Qed.

(** X24: with the device node present and a device that accepts every
    call, [print_gradient.py] announces 48 bytes per row and 200 rows and
    sends the newline, the reset, the header 1D 76 30 00 30 00 C8 00 and a
    payload of 9600 bytes, whatever values the ramp takes. *)
Theorem print_gradient_main_sends (ramp : Z -> Z -> Z) (env : Env) :
  path_exists env DEV = true ->
  open_error env DEV = None ->
  (forall tr ev, call_error env tr ev = None) ->
  exists data,
    len data = 9600 /\
    PrintGradient.main ramp env world0
    = (mkWorld ["Width px: 384 Bytes/row: 48 Height px: 200"; "Sent OK."]%string
         (transmission [0x1D; 0x76; 0x30; 0x00; 0x30; 0x00; 0xC8; 0x00] data),
       Ok tt).
Proof.
  intros Hdev Hopen Hcall. unfold PrintGradient.main. rewrite Hdev. cbn [negb].
  unfold io_bind, lift. rewrite build_bitmap_closed by (unfold WIDTH; lia).
  exists (gradient_raster ramp WIDTH (bytes_per_row_of WIDTH) PrintGradient.HEIGHT).
  split.
  - unfold len, gradient_raster.
    rewrite (length_concat_uniform _ _ (gradient_rows_uniform _ _ _ _)).
    rewrite length_map, range_length. reflexivity.
  - unfold print, try_except.
    rewrite send_to_printer_ok by assumption. reflexivity.
Qed.

Lemma print_gradient_main_sends_witness :
  exists data,
    len data = 9600 /\
    PrintGradient.main ramp_exact env_ok world0
    = (mkWorld ["Width px: 384 Bytes/row: 48 Height px: 200"; "Sent OK."]%string
         (transmission [0x1D; 0x76; 0x30; 0x00; 0x30; 0x00; 0xC8; 0x00] data),
       Ok tt).
Proof.
  apply (print_gradient_main_sends ramp_exact env_ok);
    [reflexivity | reflexivity | intros; reflexivity].
Defined.

(** ** The packer: the darkest image *)

Lemma byte_value_dark (f : Z -> Z) (byte_i : Z) (first : bool) :
  f (byte_i * 8 + 0) = (if first then 0 else 1) ->
  (forall k, 1 <= k < 8 -> f (byte_i * 8 + k) = 1) ->
  byte_value f byte_i = (if first then 0x7F else 0xFF).
Proof.
  intros H0 Hk. unfold byte_value, bits_value.
  change (range 8) with [0; 1; 2; 3; 4; 5; 6; 7]. cbn [map fold_left].
  rewrite H0, (Hk 1), (Hk 2), (Hk 3), (Hk 4), (Hk 5), (Hk 6), (Hk 7) by lia.
  destruct first; reflexivity.
Qed.

(** X25: an image a whole number of bytes wide whose pixels are all 0, 1
    or 2 packs to 0x7F in every byte of the rows 0, 8, 16, ... and to 0xFF
    in every byte of the other rows: the darkest image is never printed
    solid black. *)
Theorem pack_dark_image (img : Image) (y byte_i : Z) :
  im_width img mod 8 = 0 ->
  (forall x y, 0 <= x < im_width img -> 0 <= y < im_height img ->
               0 <= im_load img x y <= 2) ->
  0 <= y < im_height img -> 0 <= byte_i < im_width img / 8 ->
  exists data,
    PrintTweet.build_bitmap_from_image img
    = Ok (data, im_width img / 8, im_height img) /\
    py_index data (y * (im_width img / 8) + byte_i)
    = Ok (if y mod 8 =? 0 then 0x7F else 0xFF).
Proof.
  intros Hw Hpx Hy Hi. rewrite build_bitmap_from_image_closed.
  assert (Hb : bytes_per_row_of (im_width img) = im_width img / 8).
  { unfold bytes_per_row_of, width_padded_of. rewrite Hw.
    change ((8 - 0) mod 8) with 0. now rewrite Z.add_0_r. }
  rewrite Hb. eexists. split; [reflexivity |].
  rewrite raster_index by assumption. f_equal.
  pose proof (Z.div_mod (im_width img) 8 ltac:(lia)) as Hdm.
  assert (Hdot : forall k, 0 <= k < 8 ->
            dot (im_load img) (im_width img) y (byte_i * 8 + k)
            = (if (k =? 0) && (y mod 8 =? 0) then 0 else 1)).
  { intros k Hk. unfold dot.
    destruct (Z.ltb_spec (byte_i * 8 + k) (im_width img)); [| lia].
    assert (Hmodk : (byte_i * 8 + k) mod 8 = k).
    { rewrite Z.add_comm, Z.mod_add, Z.mod_small by lia. reflexivity. }
    pose proof (Hpx (byte_i * 8 + k) y ltac:(lia) Hy) as Hg.
    destruct (threshold_at_cases (byte_i * 8 + k) y) as [(H0 & Hx & Hy8) | (Hb' & Hxy)].
    - rewrite H0, Hmodk in *. subst k. rewrite Hy8. simpl.
      destruct (Z.ltb_spec (im_load img (byte_i * 8 + 0) y) 0); [lia | reflexivity].
    - destruct (Z.ltb_spec (im_load img (byte_i * 8 + k) y)
                  (threshold_at (byte_i * 8 + k) y)); [| lia].
      rewrite Hmodk in Hxy.
      destruct (Z.eqb_spec k 0), (Z.eqb_spec (y mod 8) 0); simpl;
        try reflexivity.
      destruct Hxy; contradiction. }
  apply (byte_value_dark _ byte_i (y mod 8 =? 0)).
  - rewrite Hdot by lia. simpl. now destruct (y mod 8 =? 0).
  - intros k Hk. rewrite Hdot by lia.
    destruct (Z.eqb_spec k 0); [lia | reflexivity].
Qed.

Lemma pack_dark_image_witness :
  exists data,
    PrintTweet.build_bitmap_from_image black_384x10 = Ok (data, 384 / 8, 10) /\
    py_index data (8 * (384 / 8) + 47) = Ok (if 8 mod 8 =? 0 then 0x7F else 0xFF).
Proof.
  apply (pack_dark_image black_384x10 8 47).
  - reflexivity.
  - intros x y _ _. simpl. lia.
  - simpl. lia.
  - change (im_width black_384x10 / 8) with 48. lia.
Defined.
